(** * Lead-capture backend: a shallow embedding of [schemas.py] and [main.py]

    The development follows the two source files.

    - [Schemas] embeds the [Lead] model of [schemas.py]: the request payload
      as parsed JSON, the record, and the declarative field validation that
      the web framework runs before the handler is entered.
    - [Py] holds the few pieces of the Python runtime the handler relies on
      ([str.join], [str(int)], [int(str)], truthiness of strings).
    - [Main] embeds [get_sede_cc_email], [send_email] and [create_lead] of
      [main.py] in a small state-and-exception monad.  The state is the
      document store together with the log of attempted network operations.

    Strings are Python [str] values written as their UTF-8 bytes, so equality
    of strings is equality of code-point sequences.

    External collaborators are parameters: the email-syntax validator, the
    integer coercions of the validation library, the header policy of the
    standard mail message class, the outcome of every SMTP step, and the
    persistence gateway [create_document] (module [database], which is
    imported by [main.py]). *)

From Stdlib Require Import ZArith String Ascii List Bool Lia.
From stdpp Require Import base option gmap strings list fin_maps.

Set Warnings "-register-all".

Local Open Scope string_scope.
Local Open Scope Z_scope.

(* ===================================================================== *)
(** ** The Python runtime fragments used by the handler                   *)
(* ===================================================================== *)

Module Py.

(** Truthiness of a [str]: only the empty string is falsy. *)
Definition truthy (s : string) : bool :=
  match s with
  | EmptyString => false
  | String _ _ => true
  end.

(** Truthiness of [Optional[str]]: [None] and the empty string are falsy. *)
Definition truthy_opt (o : option string) : bool :=
  match o with
  | None => false
  | Some s => truthy s
  end.

(** [o or d] for an optional string [o] and a string [d]. *)
Definition or_else (o : option string) (d : string) : string :=
  match o with
  | Some s => if truthy s then s else d
  | None => d
  end.

(** The line feed written [\n] in the source. *)
Definition nl : string := String (ascii_of_nat 10) EmptyString.

(** [sep.join(xs)]. *)
Fixpoint join (sep : string) (xs : list string) : string :=
  match xs with
  | [] => ""
  | [x] => x
  | x :: rest => x +:+ sep +:+ join sep rest
  end.

Definition digit_char (d : nat) : ascii := ascii_of_nat (48 + d).

(** Decimal digits of a natural number, most significant first.  The fuel
    bounds the number of digits; [S n] digits always suffice for [n]. *)
Fixpoint digits_fuel (fuel n : nat) (acc : string) : string :=
  match fuel with
  | O => acc
  | S fuel' =>
      let acc' := String (digit_char (n mod 10)) acc in
      match (n / 10)%nat with
      | O => acc'
      | q => digits_fuel fuel' q acc'
      end
  end.

Definition str_nat (n : nat) : string := digits_fuel (S n) n "".

(** [str(n)] for an [int]. *)
Definition str_int (n : Z) : string :=
  match n with
  | Z0 => "0"
  | Zpos p => str_nat (Pos.to_nat p)
  | Zneg p => "-" +:+ str_nat (Pos.to_nat p)
  end.

(** The ASCII characters for which [str.isspace] holds: tab to carriage
    return, the four separators, and the space. *)
Definition is_space (c : ascii) : bool :=
  let n := nat_of_ascii c in
  ((9 <=? n) && (n <=? 13) || (28 <=? n) && (n <=? 32))%nat.

Definition digit_value (c : ascii) : option Z :=
  let n := nat_of_ascii c in
  if ((48 <=? n) && (n <=? 57))%nat then Some (Z.of_nat (n - 48)) else None.

Fixpoint lstrip (s : string) : string :=
  match s with
  | String c rest => if is_space c then lstrip rest else s
  | EmptyString => EmptyString
  end.

(** Drops trailing whitespace: a character is kept when it is not a space
    or when something is kept after it. *)
Fixpoint rstrip (s : string) : string :=
  match s with
  | EmptyString => EmptyString
  | String c rest =>
      match rstrip rest with
      | EmptyString => if is_space c then EmptyString else String c EmptyString
      | kept => String c kept
      end
  end.

(** Digits with single underscores allowed between digits.  [seen] tells
    whether the previous character was a digit. *)
Fixpoint int_digits (s : string) (acc : Z) (seen : bool) : option Z :=
  match s with
  | EmptyString => if seen then Some acc else None
  | String c rest =>
      match digit_value c with
      | Some d => int_digits rest (10 * acc + d) true
      | None =>
          if (Ascii.eqb c "_" && seen)%bool
          then match rest with
               | EmptyString => None
               | _ => int_digits rest acc false
               end
          else None
      end
  end.

(** [int(s)] for a [str] in base ten: surrounding whitespace is dropped,
    one sign is allowed, then decimal digits, single underscores allowed
    between them.  [None] stands for [ValueError].  Digits and spaces
    outside ASCII are not read: a string that needs them is reported as
    [None]. *)
Definition int_of_str (s : string) : option Z :=
  match rstrip (lstrip s) with
  | String "-" rest => option_map Z.opp (int_digits rest 0 false)
  | String "+" rest => int_digits rest 0 false
  | body => int_digits body 0 false
  end.

End Py.

(* ===================================================================== *)
(** ** schemas.py                                                          *)
(* ===================================================================== *)

Module Schemas.

(** A parsed JSON value of the request body.  A number with a fraction or
    an exponent is kept as mantissa and decimal exponent. *)
Inductive raw : Type :=
| RNull
| RBool (b : bool)
| RInt (n : Z)
| RFloat (mantissa exponent : Z)
| RStr (s : string)
| RList (items : list raw)
| RObject (fields : list (string * raw)).

(** [class Lead(BaseModel)]. *)
Record Lead : Type := mkLead {
  parent_name : string;
  parent_email : string;
  parent_phone : string;
  child_name : string;
  child_age : Z;
  program : string;
  sede : string;
  courses : list string;
  message : option string;
  source : option string
}.

(** The kinds of error the validation reports for this model. *)
Inductive error_type : Type :=
| Missing
| StringType
| IntType
| GreaterThanEqual (bound : Z)
| LessThanEqual (bound : Z)
| EmailSyntax
| ListType.

(** One reported error: the field, the index inside a list field when the
    error is on an item, and the kind. *)
Record error_details : Type := mkError {
  err_field : string;
  err_index : option nat;
  err_type : error_type
}.

Definition checked (A : Type) : Type := (list error_details + A)%type.

(** Validation reports every failing field, not only the first: results
    are combined applicatively and the error lists concatenated in field
    order. *)
Definition ap {A B : Type} (f : checked (A -> B)) (x : checked A) : checked B :=
  match f, x with
  | inr g, inr a => inr (g a)
  | inr _, inl ex => inl ex
  | inl ef, inr _ => inl ef
  | inl ef, inl ex => inl (ef ++ ex)%list
  end.

(** The errors carried by a checked value. *)
Definition errors_of {A : Type} (x : checked A) : list error_details :=
  match x with
  | inl errs => errs
  | inr _ => []
  end.

Section Validation.

(** The email-syntax validator behind [EmailStr]: [None] when the address
    is rejected, the normalised address otherwise. *)
Variable email_validator : string -> option string.

(** The coercion to [int] of values that are not already integers
    (numeric strings, floats without fraction and the like). *)
Variable lax_int : raw -> option Z.

(** [str]: only a string is accepted; the empty string is a string. *)
Definition validate_str (r : raw) : error_type + string :=
  match r with
  | RStr s => inr s
  | _ => inl StringType
  end.

(** [EmailStr]. *)
Definition validate_email (r : raw) : error_type + string :=
  match r with
  | RStr s =>
      match email_validator s with
      | Some e => inr e
      | None => inl EmailSyntax
      end
  | _ => inl StringType
  end.

Definition coerce_int (r : raw) : option Z :=
  match r with
  | RInt n => Some n
  | other => lax_int other
  end.

(** [int] with [ge] and [le] bounds. *)
Definition validate_int (ge le : Z) (r : raw) : error_type + Z :=
  match coerce_int r with
  | None => inl IntType
  | Some n =>
      if n <? ge then inl (GreaterThanEqual ge)
      else if le <? n then inl (LessThanEqual le)
      else inr n
  end.

(** [Optional[str]] once the key is present. *)
Definition validate_opt_str (r : raw) : error_type + option string :=
  match r with
  | RNull => inr None
  | RStr s => inr (Some s)
  | _ => inl StringType
  end.

(** A field declared with [Field(...)]: the key must be present. *)
Definition required {A : Type} (name : string)
    (v : raw -> error_type + A) (data : gmap string raw) : checked A :=
  match data !! name with
  | None => inl [mkError name None Missing]
  | Some r =>
      match v r with
      | inr a => inr a
      | inl e => inl [mkError name None e]
      end
  end.

(** A field with a default: the default is taken when the key is absent. *)
Definition optional {A : Type} (name : string) (default : A)
    (v : raw -> error_type + A) (data : gmap string raw) : checked A :=
  match data !! name with
  | None => inr default
  | Some r =>
      match v r with
      | inr a => inr a
      | inl e => inl [mkError name None e]
      end
  end.

(** The items of a [List[str]], each checked as [str]; the index of a
    failing item is reported. *)
Fixpoint validate_items (name : string) (i : nat) (items : list raw)
    : checked (list string) :=
  match items with
  | [] => inr []
  | r :: rest =>
      ap (ap (inr cons)
            (match validate_str r with
             | inr s => inr s
             | inl e => inl [mkError name (Some i) e]
             end))
         (validate_items name (S i) rest)
  end.

(** [List[str]] with [default_factory=list]. *)
Definition str_list (name : string) (data : gmap string raw)
    : checked (list string) :=
  match data !! name with
  | None => inr []
  | Some (RList items) => validate_items name 0 items
  | Some _ => inl [mkError name None ListType]
  end.

(** Construction of a [Lead] from a mapping of field names to values:
    what the framework does with the request body, and what
    constructing a [Lead] from keyword arguments does: on the values a
    dump holds (strings, integers, lists of strings, [None]) the two
    agree.  Keys that are not fields are ignored. *)
Definition validate_Lead (data : gmap string raw) : checked Lead :=
  ap (ap (ap (ap (ap (ap (ap (ap (ap (ap (inr mkLead)
    (required "parent_name" validate_str data))
    (required "parent_email" validate_email data))
    (required "parent_phone" validate_str data))
    (required "child_name" validate_str data))
    (required "child_age" (validate_int 3 17) data))
    (required "program" validate_str data))
    (required "sede" validate_str data))
    (str_list "courses" data))
    (optional "message" None validate_opt_str data))
    (optional "source" None validate_opt_str data).

End Validation.

Definition dump_opt (o : option string) : raw :=
  match o with
  | None => RNull
  | Some s => RStr s
  end.

(** [lead.model_dump()]: every field, under its name. *)
Definition model_dump (l : Lead) : gmap string raw :=
  <["parent_name" := RStr (parent_name l)]>
  (<["parent_email" := RStr (parent_email l)]>
  (<["parent_phone" := RStr (parent_phone l)]>
  (<["child_name" := RStr (child_name l)]>
  (<["child_age" := RInt (child_age l)]>
  (<["program" := RStr (program l)]>
  (<["sede" := RStr (sede l)]>
  (<["courses" := RList (map RStr (courses l))]>
  (<["message" := dump_opt (message l)]>
  (<["source" := dump_opt (source l)]> ∅))))))))).

(** *** Vocabulary of the statements *)

(** The fields declared with [Field(...)], in declaration order. *)
Definition required_fields : list string :=
  ["parent_name"; "parent_email"; "parent_phone"; "child_name"; "child_age";
   "program"; "sede"].

(** The required fields whose value must be a string. *)
Definition text_fields : list string :=
  ["parent_name"; "parent_email"; "parent_phone"; "child_name"; "program"; "sede"].

(** All the fields of the model. *)
Definition field_names : list string :=
  (required_fields ++ ["courses"; "message"; "source"])%list.

Definition is_str (r : raw) : bool :=
  match r with
  | RStr _ => true
  | _ => false
  end.

(** A lead with another age. *)
Definition with_age (l : Lead) (n : Z) : Lead :=
  mkLead (parent_name l) (parent_email l) (parent_phone l) (child_name l) n
    (program l) (sede l) (courses l) (message l) (source l).

End Schemas.

(* ===================================================================== *)
(** ** main.py                                                             *)
(* ===================================================================== *)

Module Main.

Import Schemas.

(** *** Exceptions, effects and the monad of the handler *)

(** Exceptions.  [Exception msg] is any exception other than the two the
    handler names; [msg] is its [str(e)]. *)
Inductive exn : Type :=
| HTTPException (status_code : Z) (detail : string)
| ValidationError (errors : list error_details)
| Exception (msg : string).

(** [email.message.EmailMessage]: the headers in the order they were set,
    and the content. *)
Record EmailMessage : Type := mkMessage {
  headers : list (string * string);
  content : string
}.

(** The network operations of one SMTP session.  [Quit] is what leaving
    the [with] block does. *)
Inductive net_op : Type :=
| Connect (host : string) (port : Z)
| StartTLS
| Login (user password : string)
| SendMessage (msg : EmailMessage)
| Quit.

(** The libraries the handler calls into. *)
Record Libraries : Type := mkLibraries {
  (** the validator behind [EmailStr] *)
  email_validator : string -> option string;
  (** coercion to [int] of values that are not integers *)
  lax_int : raw -> option Z;
  (** [str(ve)] of a [ValidationError] *)
  show_errors : list error_details -> string;
  (** whether the message policy accepts [msg[name] = value] *)
  header_accepts : string -> string -> bool;
  (** whether [msg.set_content(body)] accepts the body *)
  content_accepts : string -> bool
}.

(** The surroundings of the process: the environment variables, the
    outcome of every network operation given the operations attempted so
    far, and the persistence gateway over a store of type [Store].  The
    gateway answers [inl m] when it raises an exception [e] with
    [str(e) = m], and [inr id] when it returns the identifier [id]. *)
Record World (Store : Type) : Type := mkWorld {
  environ : gmap string string;
  relay : list net_op -> net_op -> bool;
  create_document : Store -> string -> Lead -> (string + string) * Store
}.
Arguments environ {Store} _.
Arguments relay {Store} _ _ _.
Arguments create_document {Store} _ _ _ _.
Arguments mkWorld {Store} _ _ _.

(** The state threaded through a request: the store, and the network
    operations attempted so far, oldest first. *)
Record state (Store : Type) : Type := mkState {
  store : Store;
  network : list net_op
}.
Arguments store {Store} _.
Arguments network {Store} _.
Arguments mkState {Store} _ _.

Inductive outcome (A : Type) : Type :=
| Return (a : A)
| Raise (e : exn).
Arguments Return {A} _.
Arguments Raise {A} _.

Definition M (Store A : Type) : Type := state Store -> outcome A * state Store.

Definition ret {Store A : Type} (a : A) : M Store A := fun s => (Return a, s).

Definition raise {Store A : Type} (e : exn) : M Store A := fun s => (Raise e, s).

Definition bind {Store A B : Type} (m : M Store A) (k : A -> M Store B) : M Store B :=
  fun s =>
    match m s with
    | (Return a, s') => k a s'
    | (Raise e, s') => (Raise e, s')
    end.

(** [try: m  except ... as e: h e]. *)
Definition try_except {Store A : Type} (m : M Store A) (h : exn -> M Store A) : M Store A :=
  fun s =>
    match m s with
    | (Return a, s') => (Return a, s')
    | (Raise e, s') => h e s'
    end.

(** [with ...: body], where [leave] is the exit of the context manager:
    it runs after the body whether the body raised or not, and the block
    raises when either does. *)
Definition with_exit {Store A : Type} (body : M Store A) (leave : M Store unit) : M Store A :=
  fun s =>
    match body s with
    | (Return a, s') =>
        match leave s' with
        | (Return _, s'') => (Return a, s'')
        | (Raise e, s'') => (Raise e, s'')
        end
    | (Raise e, s') =>
        match leave s' with
        | (Return _, s'') => (Raise e, s'')
        | (Raise e', s'') => (Raise e', s'')
        end
    end.

Declare Scope py_scope.
Delimit Scope py_scope with py.
Notation "x <- m ;; k" := (bind m (fun x => k))
  (at level 100, m at next level, right associativity) : py_scope.
Notation "m ;;; k" := (bind m (fun _ => k))
  (at level 100, right associativity) : py_scope.
Local Open Scope py_scope.

(** [os.getenv(name, default)]. *)
Definition getenv_default (env : gmap string string) (name default : string) : string :=
  match env !! name with
  | Some v => v
  | None => default
  end.

(** *** Email utilities *)

Definition key_map : gmap string string :=
  list_to_map
    [ ("San Isidro", "SEDE_SAN_ISIDRO_EMAIL");
      ("La Molina", "SEDE_LA_MOLINA_EMAIL");
      ("Pueblo Libre", "SEDE_PUEBLO_LIBRE_EMAIL");
      ("Breña", "SEDE_BRENA_EMAIL");
      ("San Miguel", "SEDE_SAN_MIGUEL_EMAIL") ].

(** [get_sede_cc_email(sede)]. *)
Definition get_sede_cc_email (env : gmap string string) (sede : string) : option string :=
  let env_key := key_map !! sede in
  if Py.truthy_opt env_key then env !! (default "" env_key) else None.

(** [msg[name] = value]: the policy of the message class may refuse the
    value, which raises. *)
Definition set_header {Store : Type} (lib : Libraries) (msg : EmailMessage)
    (name value : string) : M Store EmailMessage :=
  if header_accepts lib name value
  then ret (mkMessage (headers msg ++ [(name, value)])%list (content msg))
  else raise (Exception "ValueError: header value refused").

(** [if cc_addrs: msg["Cc"] = ", ".join(cc_addrs)]: nothing is set for
    [None] and for the empty list. *)
Definition set_cc {Store : Type} (lib : Libraries) (msg : EmailMessage)
    (cc_addrs : option (list string)) : M Store EmailMessage :=
  match cc_addrs with
  | Some (c :: cs) => set_header lib msg "Cc" (Py.join ", " (c :: cs))
  | _ => ret msg
  end.

(** [msg.set_content(body)]. *)
Definition set_content {Store : Type} (lib : Libraries) (msg : EmailMessage)
    (body : string) : M Store EmailMessage :=
  if content_accepts lib body
  then ret (mkMessage (headers msg) body)
  else raise (Exception "set_content refused the body").

(** One network operation: it is logged as attempted, and raises when the
    relay makes it fail. *)
Definition net {Store : Type} (w : World Store) (op : net_op) : M Store unit :=
  fun s =>
    let s' := mkState (store s) (network s ++ [op])%list in
    if relay w (network s) op
    then (Return tt, s')
    else (Raise (Exception "SMTP operation failed"), s').

(** [int(os.getenv("SMTP_PORT", "587"))]. *)
Definition read_port {Store : Type} (env : gmap string string) : M Store Z :=
  match Py.int_of_str (getenv_default env "SMTP_PORT" "587") with
  | Some p => ret p
  | None => raise (Exception "ValueError: invalid literal for int() with base 10")
  end.

(** The body of the [with smtplib.SMTP(...) as server] statement and its
    exit.  A failed [Connect] raises before the block is entered. *)
Definition smtp_session {Store : Type} (w : World Store)
    (host : string) (port : Z) (user password : string) (msg : EmailMessage)
    : M Store unit :=
  net w (Connect host port) ;;;
  with_exit
    (net w StartTLS ;;;
     net w (Login user password) ;;;
     net w (SendMessage msg))
    (net w Quit).

(** [send_email(subject, body, to_addrs, cc_addrs)]. *)
Definition send_email {Store : Type} (lib : Libraries) (w : World Store)
    (subject body : string) (to_addrs : list string)
    (cc_addrs : option (list string)) : M Store bool :=
  let smtp_host := environ w !! "SMTP_HOST" in
  smtp_port <- read_port (environ w) ;;
  let smtp_user := environ w !! "SMTP_USER" in
  let smtp_pass := environ w !! "SMTP_PASS" in
  let smtp_from :=
    getenv_default (environ w) "SMTP_FROM" (Py.or_else smtp_user "no-reply@localhost") in
  if negb (Py.truthy_opt smtp_host) || negb (Py.truthy_opt smtp_user)
     || negb (Py.truthy_opt smtp_pass)
  then ret false
  else
    msg <- set_header lib (mkMessage [] "") "Subject" subject ;;
    msg <- set_header lib msg "From" smtp_from ;;
    msg <- set_header lib msg "To" (Py.join ", " to_addrs) ;;
    msg <- set_cc lib msg cc_addrs ;;
    msg <- set_content lib msg body ;;
    try_except
      (smtp_session w (default "" smtp_host) smtp_port
         (default "" smtp_user) (default "" smtp_pass) msg ;;;
       ret true)
      (fun _ => ret false).

(** *** The intake handler *)

(** The dictionary returned by [create_lead]. *)
Record lead_created : Type := mkCreated {
  ok : bool;
  id : string;
  email_sent : bool
}.

(** [str(e)]. *)
Definition str_exn (lib : Libraries) (e : exn) : string :=
  match e with
  | HTTPException c d => Py.str_int c +:+ ": " +:+ d
  | ValidationError errs => show_errors lib errs
  | Exception msg => msg
  end.

(** The call of the persistence gateway. *)
Definition call_create_document {Store : Type} (w : World Store)
    (collection : string) (lead : Lead) : M Store string :=
  fun s =>
    match create_document w (store s) collection lead with
    | (inr lead_id, st) => (Return lead_id, mkState st (network s))
    | (inl msg, st) => (Raise (Exception msg), mkState st (network s))
    end.

Definition email_subject (lead : Lead) : string :=
  "Nueva Acrópolis Lima - Lead Kids (" +:+ program lead +:+ ") - " +:+ sede lead.

Definition email_body (lead : Lead) (lead_id : string) : string :=
  String.concat ""
    [ "Nuevo lead recibido para Cursos de Verano Kids"; Py.nl; Py.nl;
      "Sede: "; sede lead; Py.nl;
      "Programa: "; program lead; Py.nl;
      "Cursos de interés: ";
      match courses lead with
      | [] => "N/A"
      | _ => Py.join ", " (courses lead)
      end; Py.nl; Py.nl;
      "Datos del padre/madre:"; Py.nl;
      "- Nombre: "; parent_name lead; Py.nl;
      "- Email: "; parent_email lead; Py.nl;
      "- Teléfono: "; parent_phone lead; Py.nl; Py.nl;
      "Datos del niño/niña:"; Py.nl;
      "- Nombre: "; child_name lead; Py.nl;
      "- Edad: "; Py.str_int (child_age lead); Py.nl; Py.nl;
      "Mensaje: "; Py.or_else (message lead) "—"; Py.nl;
      "Fuente: "; Py.or_else (source lead) "—"; Py.nl;
      "ID: "; lead_id; Py.nl ].

(** The first statement of the handler: the lead is built again from its
    own dump, and a [ValidationError] becomes a 422. *)
Definition revalidate {Store : Type} (lib : Libraries) (lead : Lead) : M Store unit :=
  try_except
    (match validate_Lead (email_validator lib) (lax_int lib) (model_dump lead) with
     | inr _ => ret tt
     | inl errs => raise (ValidationError errs)
     end)
    (fun e =>
       match e with
       | ValidationError _ => raise (HTTPException 422 (str_exn lib e))
       | _ => raise e
       end).

(** [create_lead(lead)], entered with a [Lead] the framework built. *)
Definition create_lead {Store : Type} (lib : Libraries) (w : World Store)
    (lead : Lead) : M Store lead_created :=
  revalidate lib lead ;;;
  lead_id <- try_except
               (call_create_document w "lead" lead)
               (fun e => raise (HTTPException 500 ("Database error: " +:+ str_exn lib e))) ;;
  let sede_cc := get_sede_cc_email (environ w) (sede lead) in
  let to_addrs := [getenv_default (environ w) "LEADS_TO" "cursos@acropolisperu.org"] in
  let cc_addrs := if Py.truthy_opt sede_cc then [default "" sede_cc] else [] in
  let subject := email_subject lead in
  let body := email_body lead lead_id in
  email_sent <- send_email lib w subject body to_addrs (Some cc_addrs) ;;
  ret (mkCreated true lead_id email_sent).

(** *** The endpoint [POST /api/leads] as the framework serves it *)

Inductive response : Type :=
| Success (body : lead_created)
| RequestValidationError (errors : list error_details)
| HTTPError (status_code : Z) (detail : string)
| InternalServerError.

(** The status code of a response. *)
Definition status (r : response) : Z :=
  match r with
  | Success _ => 200
  | RequestValidationError _ => 422
  | HTTPError c _ => c
  | InternalServerError => 500
  end.

(** The framework builds the [Lead] from the JSON object of the request
    and answers 422 itself when that fails; it turns an [HTTPException]
    of the handler into a response with that status and detail, and any
    other exception into a plain 500. *)
Definition post_api_leads {Store : Type} (lib : Libraries) (w : World Store)
    (payload : gmap string raw) (s : state Store) : response * state Store :=
  match validate_Lead (email_validator lib) (lax_int lib) payload with
  | inl errs => (RequestValidationError errs, s)
  | inr lead =>
      match create_lead lib w lead s with
      | (Return r, s') => (Success r, s')
      | (Raise (HTTPException c d), s') => (HTTPError c d, s')
      | (Raise _, s') => (InternalServerError, s')
      end
  end.

(** *** Vocabulary of the statements *)

(** The three mail settings the sender insists on are all present and
    non-empty. *)
Definition mail_configured (env : gmap string string) : bool :=
  Py.truthy_opt (env !! "SMTP_HOST") && Py.truthy_opt (env !! "SMTP_USER")
  && Py.truthy_opt (env !! "SMTP_PASS").

(** The port the sender reads: the setting when there is one, 587
    otherwise; [None] when it does not read as an integer. *)
Definition port_of (env : gmap string string) : option Z :=
  Py.int_of_str (getenv_default env "SMTP_PORT" "587").

(** The library accepts every header and every body. *)
Definition accepts_all (lib : Libraries) : Prop :=
  (forall name value, header_accepts lib name value = true) /\
  (forall body, content_accepts lib body = true).





(** A computation that leaves the store alone and only adds to the log of
    network operations. *)
Definition keeps_store {Store A : Type} (m : M Store A) : Prop :=
  forall s, exists o ops, m s = (o, mkState (store s) (network s ++ ops)%list).



End Main.

(* ===================================================================== *)
(** ** main.py: the diagnostic endpoint                                    *)
(* ===================================================================== *)

Module Health.

(** A value of the response dictionary. *)
Inductive value : Type :=
| VNone
| VStr (s : string)
| VList (items : list string).

(** The [db] object of module [database] as the endpoint uses it: its
    [name] attribute when it has one, and what [list_collection_names()]
    does, [inl m] standing for an exception [e] with [str(e) = m]. *)
Record Database : Type := mkDatabase {
  db_name : option string;
  list_collection_names : string + list string
}.

(** What [from database import db] does: it raises [ImportError], it
    raises another exception with the given text, or it binds [db], which
    may be [None]. *)
Inductive import_result : Type :=
| ImportError
| ImportRaises (msg : string)
| Imported (db : option Database).

(** A byte that continues a UTF-8 sequence. *)
Definition is_continuation (c : ascii) : bool :=
  let n := nat_of_ascii c in
  ((128 <=? n) && (n <? 192))%nat.

(** The number of characters of a string. *)
Fixpoint num_chars (s : string) : nat :=
  match s with
  | EmptyString => O
  | String c rest => if is_continuation c then num_chars rest else S (num_chars rest)
  end.

(** [s[:n]]: the first [n] characters. *)
Fixpoint take_chars (n : nat) (s : string) : string :=
  match s with
  | EmptyString => EmptyString
  | String c rest =>
      if is_continuation c then String c (take_chars n rest)
      else match n with
           | O => EmptyString
           | S n' => String c (take_chars n' rest)
           end
  end.

(** [test_database()]. *)
Definition test_database (imp : import_result) (env : gmap string string)
    : gmap string value :=
  let response : gmap string value :=
    <["backend" := VStr "✅ Running"]>
    (<["database" := VStr "❌ Not Available"]>
    (<["database_url" := VNone]>
    (<["database_name" := VNone]>
    (<["connection_status" := VStr "Not Connected"]>
    (<["collections" := VList []]> ∅))))) in
  let response :=
    match imp with
    | Imported (Some db) =>
        let response := <["database" := VStr "✅ Available"]> response in
        let response := <["database_url" := VStr "✅ Configured"]> response in
        let response :=
          <["database_name" :=
              VStr (match db_name db with
                    | Some n => n
                    | None => "✅ Connected"
                    end)]> response in
        let response := <["connection_status" := VStr "Connected"]> response in
        match list_collection_names db with
        | inr collections =>
            let response := <["collections" := VList (take 10 collections)]> response in
            <["database" := VStr "✅ Connected & Working"]> response
        | inl msg =>
            <["database" :=
                VStr ("⚠️  Connected but Error: " +:+ take_chars 50 msg)]> response
        end
    | Imported None =>
        <["database" := VStr "⚠️  Available but not initialized"]> response
    | ImportError =>
        <["database" :=
            VStr "❌ Database module not found (run enable-database first)"]> response
    | ImportRaises msg =>
        <["database" := VStr ("❌ Error: " +:+ take_chars 50 msg)]> response
    end in
  let response :=
    <["database_url" :=
        VStr (if Py.truthy_opt (env !! "DATABASE_URL") then "✅ Set" else "❌ Not Set")]>
      response in
  <["database_name" :=
      VStr (if Py.truthy_opt (env !! "DATABASE_NAME") then "✅ Set" else "❌ Not Set")]>
    response.

(** *** Vocabulary of the statements *)

(** The texts the [database] entry takes when nothing went wrong or no
    error text is quoted. *)
Definition fixed_reports : list string :=
  ["✅ Connected & Working";
   "⚠️  Available but not initialized";
   "❌ Database module not found (run enable-database first)"].

(** The labels that precede a quoted error text. *)
Definition error_labels : list string :=
  ["⚠️  Connected but Error: "; "❌ Error: "].

(** The text of the exception the endpoint caught, when it caught one
    other than [ImportError]. *)
Definition error_text (imp : import_result) : option string :=
  match imp with
  | ImportRaises msg => Some msg
  | Imported (Some db) =>
      match list_collection_names db with
      | inl msg => Some msg
      | inr _ => None
      end
  | _ => None
  end.

(** The collection names the store lists, when it is there and lists
    them. *)
Definition listed (imp : import_result) : list string :=
  match imp with
  | Imported (Some db) =>
      match list_collection_names db with
      | inr names => names
      | inl _ => []
      end
  | _ => []
  end.

(** Whether [db] was imported and is not [None]. *)
Definition has_db (imp : import_result) : bool :=
  match imp with
  | Imported (Some _) => true
  | _ => false
  end.

(** The keys of the response. *)
Definition response_keys : gset string :=
  {["backend"; "database"; "database_url"; "database_name";
    "connection_status"; "collections"]}.

End Health.

(* ===================================================================== *)
(** ** The persistence gateway                                             *)
(* ===================================================================== *)

Module Database.

Import Schemas.

(** The document store: whether a connection is active, and the stored
    documents with their identifier and collection, oldest first. *)
Record DocStore : Type := mkStore {
  available : bool;
  documents : list (string * (string * Lead))
}.

(** The identifier given to the [n]-th document.  Documents are never
    removed, so identifiers are not reused. *)
Definition new_identifier (n : nat) : string := "doc-" +:+ Py.str_nat n.

(** Modelled from the spec: [create_document] of module [database], which
    [main.py] imports and which is not among the source files.  Given a
    collection name and a validated record it inserts exactly one document
    and returns a newly generated, unique, non-empty identifier; there is
    no deduplication.  When no store connection is active it fails with a
    storage-unavailable error and inserts nothing. *)
Definition create_document (st : DocStore) (collection : string) (lead : Lead)
    : (string + string) * DocStore :=
  if available st
  then
    let lead_id := new_identifier (length (documents st)) in
    (inr lead_id,
     mkStore true (documents st ++ [(lead_id, (collection, lead))])%list)
  else (inl "storage unavailable", st).

End Database.

(* ===================================================================== *)
(** ** Concrete surroundings on which the model is run                     *)
(* ===================================================================== *)

Module Sample.

Import Schemas Main.

(** Whether a string contains the character [c]. *)
Fixpoint has_char (c : ascii) (s : string) : bool :=
  match s with
  | EmptyString => false
  | String d rest => Ascii.eqb c d || has_char c rest
  end.

(** The part of a string after its first [@], when it has one and
    something stands before it. *)
Fixpoint domain_of (s : string) (seen_local : bool) : option string :=
  match s with
  | EmptyString => None
  | String c rest =>
      if Ascii.eqb c "@"
      then (if seen_local then Some rest else None)
      else domain_of rest true
  end.

(** A small stand-in for the email-syntax library: [local@domain] with a
    non-empty local part, a single [@] and a dot in the domain; the
    address is returned as it is. *)
Definition email_validator (s : string) : option string :=
  match domain_of s false with
  | Some d => if has_char "." d && negb (has_char "@" d) then Some s else None
  | None => None
  end.

(** Numeric strings are coerced to integers, nothing else is. *)
Definition lax_int (r : raw) : option Z :=
  match r with
  | RStr s => Py.int_of_str s
  | _ => None
  end.

(** A header value is refused when it holds a line feed or a carriage
    return. *)
Definition header_accepts (name value : string) : bool :=
  negb (has_char (ascii_of_nat 10) value || has_char (ascii_of_nat 13) value).

Definition lib : Libraries :=
  mkLibraries email_validator lax_int
    (fun errs => "validation error") header_accepts (fun _ => true).

(** A relay on which every operation succeeds, and one that is
    unreachable. *)
Definition relay_up (log : list net_op) (op : net_op) : bool := true.
Definition relay_down (log : list net_op) (op : net_op) : bool := false.

(** A relay that refuses the login. *)
Definition relay_bad_login (log : list net_op) (op : net_op) : bool :=
  match op with
  | Login _ _ => false
  | _ => true
  end.

Definition smtp_env : gmap string string :=
  <["SMTP_HOST" := "smtp.example.org"]>
  (<["SMTP_USER" := "mailer"]>
  (<["SMTP_PASS" := "secret"]>
  (<["SEDE_SAN_ISIDRO_EMAIL" := "sanisidro@example.org"]> ∅))).

(** The mail relay is configured and reachable. *)
Definition world_ok : World Database.DocStore :=
  mkWorld smtp_env relay_up Database.create_document.

(** No mail variable is set. *)
Definition world_no_mail : World Database.DocStore :=
  mkWorld ∅ relay_up Database.create_document.

(** The four mail variables are set, and all of them are blank. *)
Definition blank_env : gmap string string :=
  <["SMTP_HOST" := ""]>
  (<["SMTP_PORT" := ""]>
  (<["SMTP_USER" := ""]>
  (<["SMTP_PASS" := ""]> ∅))).

Definition world_blank_mail : World Database.DocStore :=
  mkWorld blank_env relay_up Database.create_document.

(** The mail relay is configured but the port is not a number. *)
Definition world_bad_port : World Database.DocStore :=
  mkWorld (<["SMTP_PORT" := "smtp"]> smtp_env) relay_up Database.create_document.

(** A gateway that raises an exception whose text is [msg]. *)
Definition failing_gateway (msg : string) (st : Database.DocStore)
    (collection : string) (lead : Lead) : (string + string) * Database.DocStore :=
  (inl msg, st).

Definition world_db_error (msg : string) : World Database.DocStore :=
  mkWorld smtp_env relay_up (failing_gateway msg).

Definition st_up : state Database.DocStore := mkState (Database.mkStore true []) [].
Definition st_down : state Database.DocStore := mkState (Database.mkStore false []) [].

(** The request of scenario A, with the age left open. *)
Definition request (age : raw) : gmap string raw :=
  <["parent_name" := RStr "Ana"]>
  (<["parent_email" := RStr "ana@x.com"]>
  (<["parent_phone" := RStr "999"]>
  (<["child_name" := RStr "Leo"]>
  (<["child_age" := age]>
  (<["program" := RStr "Kids"]>
  (<["sede" := RStr "San Isidro"]>
  (<["courses" := RList [RStr "Ajedrez"]]> ∅))))))).

Definition ana : Lead :=
  mkLead "Ana" "ana@x.com" "999" "Leo" 8 "Kids" "San Isidro" ["Ajedrez"] None None.

(** The same request with every text field but the email left empty. *)
Definition blank_request : gmap string raw :=
  <["parent_name" := RStr ""]>
  (<["parent_email" := RStr "ana@x.com"]>
  (<["parent_phone" := RStr ""]>
  (<["child_name" := RStr ""]>
  (<["child_age" := RInt 8]>
  (<["program" := RStr ""]>
  (<["sede" := RStr ""]> ∅)))))).

(** The request of scenario E: a location that is not one of the five. *)
Definition atlantis_request : gmap string raw :=
  <["sede" := RStr "Atlantis"]> (request (RInt 8)).

(** The mail relay is configured and unreachable. *)
Definition world_relay_down : World Database.DocStore :=
  mkWorld smtp_env relay_down Database.create_document.

(** The mail relay is configured and refuses the login. *)
Definition world_bad_login : World Database.DocStore :=
  mkWorld smtp_env relay_bad_login Database.create_document.

(** The part of an address before its first [@]. *)
Fixpoint local_part (s : string) : string :=
  match s with
  | EmptyString => EmptyString
  | String c rest => if Ascii.eqb c "@" then EmptyString else String c (local_part rest)
  end.

(** A validator that does not accept what it returns: it accepts the same
    addresses and returns their local part. *)
Definition local_part_validator (s : string) : option string :=
  match email_validator s with
  | Some a => Some (local_part a)
  | None => None
  end.

Definition lib_local_part : Libraries :=
  mkLibraries local_part_validator lax_int
    (fun errs => "validation error") header_accepts (fun _ => true).

(** The messages handed to the relay in a log. *)
Definition sent_messages (log : list net_op) : list EmailMessage :=
  omap (fun op => match op with SendMessage m => Some m | _ => None end) log.

End Sample.

(* ===================================================================== *)
(** ** Properties of the validation                                        *)
(* ===================================================================== *)

Module SchemasFacts.

Import Schemas.

Lemma ap_inr_inv {A B : Type} (f : checked (A -> B)) (x : checked A) (b : B) :
  ap f x = inr b -> exists g a, f = inr g /\ x = inr a /\ b = g a.
Proof.
  destruct f as [ef | g], x as [ex | a]; simpl; try discriminate.
  intros [= <-]. eauto.
Qed.

Lemma ap_inl_r {A B : Type} (f : checked (A -> B)) (ex : list error_details) :
  ap f (inl ex) = inl (errors_of f ++ ex)%list.
Proof. destruct f; reflexivity. Qed.

Lemma ap_inl_l {A B : Type} (ef : list error_details) (x : checked A) :
  @ap A B (inl ef) x = inl (ef ++ errors_of x)%list.
Proof. destruct x; simpl; [reflexivity | by rewrite app_nil_r]. Qed.

Section Fields.

Variable email_validator : string -> option string.
Variable lax_int : raw -> option Z.

Lemma required_inv {A : Type} name (v : raw -> error_type + A) data (a : A) :
  required name v data = inr a ->
  exists r, data !! name = Some r /\ v r = inr a.
Proof.
  unfold required. destruct (data !! name) as [r |]; [| discriminate].
  destruct (v r) as [e | a'] eqn:Hv; [discriminate |].
  intros [= <-]. eauto.
Qed.

Lemma validate_str_inv r s : validate_str r = inr s -> r = RStr s.
Proof. destruct r; simpl; try discriminate. by intros [= <-]. Qed.

Lemma validate_email_inv r e :
  validate_email email_validator r = inr e ->
  exists s, r = RStr s /\ email_validator s = Some e.
Proof.
  destruct r; simpl; try discriminate.
  destruct (email_validator s) eqn:He; [| discriminate].
  intros [= <-]. eauto.
Qed.

Lemma validate_int_inv ge le r n :
  validate_int lax_int ge le r = inr n ->
  coerce_int lax_int r = Some n /\ ge <= n <= le.
Proof.
  unfold validate_int. destruct (coerce_int lax_int r) as [m |]; [| discriminate].
  destruct (Z.ltb_spec m ge); [discriminate |].
  destruct (Z.ltb_spec le m); [discriminate |].
  intros [= <-]. split; [reflexivity | lia].
Qed.

(** An integer below the lower bound or above the upper bound is
    refused, with the bound it breaks. *)
Lemma validate_int_out_of_range ge le n :
  ge <= le -> n < ge \/ le < n ->
  validate_int lax_int ge le (RInt n)
  = inl (if n <? ge then GreaterThanEqual ge else LessThanEqual le).
Proof.
  intros Hb Hn. unfold validate_int. simpl.
  destruct (Z.ltb_spec n ge); [reflexivity |].
  destruct (Z.ltb_spec le n); [reflexivity | lia].
Qed.

Lemma validate_int_in_range ge le n :
  ge <= n <= le -> validate_int lax_int ge le (RInt n) = inr n.
Proof.
  intros Hn. unfold validate_int. simpl.
  destruct (Z.ltb_spec n ge); [lia |].
  destruct (Z.ltb_spec le n); [lia | reflexivity].
Qed.



(** What acceptance says field by field. *)
Lemma validate_Lead_inv data l :
  validate_Lead email_validator lax_int data = inr l ->
  required "parent_name" validate_str data = inr (parent_name l) /\
  required "parent_email" (validate_email email_validator) data = inr (parent_email l) /\
  required "parent_phone" validate_str data = inr (parent_phone l) /\
  required "child_name" validate_str data = inr (child_name l) /\
  required "child_age" (validate_int lax_int 3 17) data = inr (child_age l) /\
  required "program" validate_str data = inr (program l) /\
  required "sede" validate_str data = inr (sede l).
Proof.
  unfold validate_Lead. intros H.
  repeat match goal with
         | H : ap _ _ = inr _ |- _ =>
             apply ap_inr_inv in H; destruct H as (? & ? & H & ? & ?)
         end.
  injection H as <-. subst. simpl. repeat split; assumption.
Qed.

Lemma required_str_present name data s :
  required name validate_str data = inr s -> data !! name = Some (RStr s).
Proof.
  intros H. apply required_inv in H as (r & Hr & Hv).
  apply validate_str_inv in Hv. by subst.
Qed.


(** A refused required field makes the whole construction fail, whatever
    the other fields hold, and its error is among those reported. *)
Lemma validate_Lead_age_refused data r e :
  data !! "child_age" = Some r ->
  validate_int lax_int 3 17 r = inl e ->
  exists errs,
    validate_Lead email_validator lax_int data = inl errs /\
    mkError "child_age" None e ∈ errs.
Proof.
  intros Hr He. unfold validate_Lead.
  assert (Hage : required "child_age" (validate_int lax_int 3 17) data
                 = inl [mkError "child_age" None e]).
  { unfold required. by rewrite Hr, He. }
  rewrite Hage, ap_inl_r.
  repeat rewrite ap_inl_l.
  eexists. split; [reflexivity |].
  rewrite !elem_of_app, list_elem_of_singleton. tauto.
Qed.


End Fields.

End SchemasFacts.

(* ===================================================================== *)
(** ** Properties of the handler                                           *)
(* ===================================================================== *)

Module MainFacts.

Import Schemas Main SchemasFacts.
Local Open Scope py_scope.

Section Handler.

Context {Store : Type}.
Variable lib : Libraries.
Variable w : World Store.

Lemma read_port_ok p (s : state Store) :
  port_of (environ w) = Some p ->
  read_port (environ w) s = (Return p, s).
Proof. unfold port_of, read_port. by intros ->. Qed.

Lemma read_port_raises (s : state Store) :
  port_of (environ w) = None ->
  exists e, read_port (environ w) s = (Raise e, s).
Proof. unfold port_of, read_port. intros ->. eauto. Qed.

(** The port is read before anything else, outside the [try]: when it
    does not read as an integer the sender raises, configured or not. *)
Lemma send_email_bad_port subject body to_addrs cc_addrs (s : state Store) :
  port_of (environ w) = None ->
  exists e, send_email lib w subject body to_addrs cc_addrs s = (Raise e, s).
Proof.
  intros Hp. destruct (read_port_raises s Hp) as [e He].
  exists e. unfold send_email, bind. by rewrite He.
Qed.


(** A network operation only extends the log. *)
Lemma net_effect op (s : state Store) :
  exists o, net w op s = (o, mkState (store s) (network s ++ [op])%list).
Proof. unfold net. destruct (relay w (network s) op); eauto. Qed.

(** An SMTP session leaves the store alone and only appends to the
    log. *)
Lemma smtp_session_effect host port user password msg (s : state Store) :
  exists o ops,
    smtp_session w host port user password msg s
    = (o, mkState (store s) (network s ++ ops)%list).
Proof.
  unfold smtp_session, bind, with_exit, net. simpl.
  repeat match goal with
         | |- context [relay w ?l ?op] => destruct (relay w l op); simpl
         end;
    rewrite <- ?app_assoc; simpl; eauto.
Qed.

(** When the port reads as an integer and the library accepts the
    message, the sender returns a boolean: whatever the relay does is
    turned into [false]. *)
Lemma send_email_returns p subject body to_addrs cc_addrs (s : state Store) :
  port_of (environ w) = Some p ->
  accepts_all lib ->
  exists b ops,
    send_email lib w subject body to_addrs cc_addrs s
    = (Return b, mkState (store s) (network s ++ ops)%list).
Proof.
  intros Hp [Hh Hb]. unfold send_email, bind. rewrite (read_port_ok p s Hp).
  destruct (negb _ || negb _ || negb _).
  { exists false, []. unfold ret. rewrite app_nil_r. by destruct s. }
  unfold set_header, set_content. rewrite !Hh. unfold ret at 1 2 3.
  assert (Hcc : forall (m : EmailMessage) (s0 : state Store),
             exists m', set_cc lib m cc_addrs s0 = (Return m', s0)).
  { intros m s0. unfold set_cc, set_header.
    destruct cc_addrs as [[| c cs] |]; unfold ret; eauto.
    rewrite Hh. eauto. }
  match goal with
  | |- context [set_cc lib ?m cc_addrs ?s0] => destruct (Hcc m s0) as [m' ->]
  end.
  rewrite Hb. unfold ret at 1, try_except, bind.
  match goal with
  | |- context [smtp_session w ?h ?po ?u ?pw ?m s] =>
      destruct (smtp_session_effect h po u pw m s) as (o & ops & ->)
  end.
  destruct o; unfold ret; eauto.
Qed.

Lemma bind_raise_inv {A B : Type} (m : M Store A) (k : A -> M Store B)
    (s s' : state Store) e :
  bind m k s = (Raise e, s') ->
  m s = (Raise e, s') \/ exists a s1, m s = (Return a, s1) /\ k a s1 = (Raise e, s').
Proof.
  unfold bind. destruct (m s) as [[a | e0] s1]; intros H.
  - right. eauto.
  - left. injection H as -> ->. reflexivity.
Qed.

Lemma read_port_raise_kind (s s' : state Store) e :
  read_port (environ w) s = (Raise e, s') -> exists msg, e = Exception msg.
Proof.
  unfold read_port. destruct (Py.int_of_str _); [discriminate |].
  unfold raise. intros H. injection H as <- _. eauto.
Qed.

Lemma set_header_raise_kind msg name value (s s' : state Store) e :
  set_header lib msg name value s = (Raise e, s') -> exists m, e = Exception m.
Proof.
  unfold set_header. destruct (header_accepts lib name value); [discriminate |].
  unfold raise. intros H. injection H as <- _. eauto.
Qed.

Lemma set_cc_raise_kind msg cc_addrs (s s' : state Store) e :
  set_cc lib msg cc_addrs s = (Raise e, s') -> exists m, e = Exception m.
Proof.
  unfold set_cc. destruct cc_addrs as [[| c cs] |]; try discriminate.
  apply set_header_raise_kind.
Qed.

Lemma set_content_raise_kind msg body (s s' : state Store) e :
  set_content lib msg body s = (Raise e, s') -> exists m, e = Exception m.
Proof.
  unfold set_content. destruct (content_accepts lib body); [discriminate |].
  unfold raise. intros H. injection H as <- _. eauto.
Qed.

(** What the sender raises, when it raises, is never an
    [HTTPException]. *)
Lemma send_email_raise_kind subject body to_addrs cc_addrs (s s' : state Store) e :
  send_email lib w subject body to_addrs cc_addrs s = (Raise e, s') ->
  exists msg, e = Exception msg.
Proof.
  unfold send_email. intros H.
  apply bind_raise_inv in H as [H | (p & s1 & _ & H)];
    [by eapply read_port_raise_kind |].
  destruct (negb _ || negb _ || negb _); [discriminate |].
  apply bind_raise_inv in H as [H | (m1 & s2 & _ & H)];
    [by eapply set_header_raise_kind |].
  apply bind_raise_inv in H as [H | (m2 & s3 & _ & H)];
    [by eapply set_header_raise_kind |].
  apply bind_raise_inv in H as [H | (m3 & s4 & _ & H)];
    [by eapply set_header_raise_kind |].
  apply bind_raise_inv in H as [H | (m4 & s5 & _ & H)];
    [by eapply set_cc_raise_kind |].
  apply bind_raise_inv in H as [H | (m5 & s6 & _ & H)];
    [by eapply set_content_raise_kind |].
  unfold try_except, bind in H.
  destruct (smtp_session _ _ _ _ _ _ _) as [[[] | e1] s7]; discriminate.
Qed.

Lemma bind_return_inv {A B : Type} (m : M Store A) (k : A -> M Store B)
    (s s' : state Store) b :
  bind m k s = (Return b, s') ->
  exists a s1, m s = (Return a, s1) /\ k a s1 = (Return b, s').
Proof.
  unfold bind. destruct (m s) as [[a | e0] s1]; intros H; [eauto | discriminate].
Qed.

Lemma set_header_return_inv msg name value (s s' : state Store) msg' :
  set_header lib msg name value s = (Return msg', s') ->
  msg' = mkMessage (headers msg ++ [(name, value)])%list (content msg) /\ s' = s.
Proof.
  unfold set_header. destruct (header_accepts lib name value); [| discriminate].
  unfold ret. intros H. injection H as <- <-. auto.
Qed.

Lemma set_cc_return_inv msg cc_addrs (s s' : state Store) msg' :
  set_cc lib msg cc_addrs s = (Return msg', s') ->
  (exists extra, headers msg' = (headers msg ++ extra)%list)
  /\ content msg' = content msg /\ s' = s.
Proof.
  unfold set_cc. destruct cc_addrs as [[| c cs] |].
  1, 3: unfold ret; intros H; injection H as <- <-;
        (split; [exists []; by rewrite app_nil_r | auto]).
  intros H. apply set_header_return_inv in H as [-> ->]. simpl. eauto.
Qed.

Lemma set_content_return_inv msg body (s s' : state Store) msg' :
  set_content lib msg body s = (Return msg', s') ->
  msg' = mkMessage (headers msg) body /\ s' = s.
Proof.
  unfold set_content. destruct (content_accepts lib body); [| discriminate].
  unfold ret. intros H. injection H as <- <-. auto.
Qed.

(** A session that completes has attempted the five operations, in
    order, and each of them succeeded. *)
Lemma smtp_session_return_inv host port user password msg (s s' : state Store) :
  smtp_session w host port user password msg s = (Return tt, s') ->
  s' = mkState (store s)
         (network s ++ [Connect host port; StartTLS; Login user password;
                        SendMessage msg; Quit])%list
  /\ relay w (network s) (Connect host port) = true
  /\ relay w (network s ++ [Connect host port])%list StartTLS = true
  /\ relay w (network s ++ [Connect host port; StartTLS])%list
       (Login user password) = true
  /\ relay w (network s ++ [Connect host port; StartTLS; Login user password])%list
       (SendMessage msg) = true
  /\ relay w (network s ++ [Connect host port; StartTLS; Login user password;
                            SendMessage msg])%list Quit = true.
Proof.
  unfold smtp_session, bind, with_exit, net. cbn [store network].
  repeat match goal with
         | |- context [if relay w ?l ?op then _ else _] =>
             destruct (relay w l op) eqn:?; cbn [store network]
         end;
    intros H; try discriminate.
  injection H as <-.
  rewrite <- !app_assoc in *. simpl in *. auto 10.
Qed.

(** The sender answers [true] only when the mail settings are complete
    and the whole session went through; the message it transmitted has
    the subject as its first header and the body as its content. *)
Lemma send_email_true_inv subject body to_addrs cc_addrs (s s' : state Store) :
  send_email lib w subject body to_addrs cc_addrs s = (Return true, s') ->
  mail_configured (environ w) = true /\
  exists port msg,
    port_of (environ w) = Some port /\
    head (headers msg) = Some ("Subject", subject) /\
    content msg = body /\
    s' = mkState (store s)
           (network s ++
            [Connect (default "" (environ w !! "SMTP_HOST")) port; StartTLS;
             Login (default "" (environ w !! "SMTP_USER"))
                   (default "" (environ w !! "SMTP_PASS"));
             SendMessage msg; Quit])%list.
Proof.
  unfold send_email. intros H.
  apply bind_return_inv in H as (port & s1 & Hport & H).
  assert (Hp : port_of (environ w) = Some port /\ s1 = s).
  { unfold read_port, port_of in *. destruct (Py.int_of_str _); [| discriminate].
    unfold ret in Hport. injection Hport as -> ->. auto. }
  destruct Hp as [Hp ->].
  unfold mail_configured.
  destruct (Py.truthy_opt (environ w !! "SMTP_HOST")); [| discriminate].
  destruct (Py.truthy_opt (environ w !! "SMTP_USER")); [| discriminate].
  destruct (Py.truthy_opt (environ w !! "SMTP_PASS")); [| discriminate].
  simpl in H. split; [reflexivity |].
  apply bind_return_inv in H as (m1 & s2 & H1 & H).
  apply set_header_return_inv in H1 as [-> ->].
  apply bind_return_inv in H as (m2 & s3 & H2 & H).
  apply set_header_return_inv in H2 as [-> ->].
  apply bind_return_inv in H as (m3 & s4 & H3 & H).
  apply set_header_return_inv in H3 as [-> ->].
  apply bind_return_inv in H as (m4 & s5 & H4 & H).
  apply set_cc_return_inv in H4 as ([extra Hh] & Hc & ->).
  apply bind_return_inv in H as (m5 & s6 & H5 & H).
  apply set_content_return_inv in H5 as [-> ->].
  unfold try_except in H.
  destruct (bind _ _ s) as [[b | e] s7] eqn:Hs; [| discriminate].
  injection H as -> ->.
  apply bind_return_inv in Hs as ([] & s8 & Hs & Hr).
  unfold ret in Hr. injection Hr as ->.
  apply smtp_session_return_inv in Hs as (-> & _).
  exists port. eexists. split; [exact Hp |].
  split; [| split; [| reflexivity]]; simpl; [| reflexivity].
  rewrite Hh. reflexivity.
Qed.

(** The handler once the lead builds again from its dump. *)
Lemma revalidate_passes lead lead' (s : state Store) :
  validate_Lead (email_validator lib) (lax_int lib) (model_dump lead) = inr lead' ->
  revalidate lib lead s = (Return tt, s).
Proof. unfold revalidate, try_except. by intros ->. Qed.

(** The insert failed: the handler raises a 500 and goes no further. *)
Lemma create_lead_storage_failure lead lead' msg st' (s : state Store) :
  validate_Lead (email_validator lib) (lax_int lib) (model_dump lead) = inr lead' ->
  create_document w (store s) "lead" lead = (inl msg, st') ->
  create_lead lib w lead s
  = (Raise (HTTPException 500 ("Database error: " +:+ msg)),
     mkState st' (network s)).
Proof.
  intros Hre Hdb. unfold create_lead, bind.
  rewrite (revalidate_passes lead lead' s Hre).
  unfold try_except, call_create_document. by rewrite Hdb.
Qed.

(** The insert succeeded: what remains is the notification. *)
Lemma create_lead_stored lead lead' lead_id st' (s : state Store) :
  validate_Lead (email_validator lib) (lax_int lib) (model_dump lead) = inr lead' ->
  create_document w (store s) "lead" lead = (inr lead_id, st') ->
  create_lead lib w lead s
  = match
      send_email lib w (email_subject lead) (email_body lead lead_id)
        [getenv_default (environ w) "LEADS_TO" "cursos@acropolisperu.org"]
        (Some (if Py.truthy_opt (get_sede_cc_email (environ w) (sede lead))
               then [default "" (get_sede_cc_email (environ w) (sede lead))]
               else []))
        (mkState st' (network s))
    with
    | (Return sent, s') => (Return (mkCreated true lead_id sent), s')
    | (Raise e, s') => (Raise e, s')
    end.
Proof.
  intros Hre Hdb. unfold create_lead, bind.
  rewrite (revalidate_passes lead lead' s Hre).
  unfold try_except, call_create_document. by rewrite Hdb.
Qed.

(** A stored lead is acknowledged whatever the relay does, as long as
    the port reads as an integer and the library accepts the message. *)
Lemma intake_success payload lead lead' lead_id st' p (s : state Store) :
  validate_Lead (email_validator lib) (lax_int lib) payload = inr lead ->
  validate_Lead (email_validator lib) (lax_int lib) (model_dump lead) = inr lead' ->
  create_document w (store s) "lead" lead = (inr lead_id, st') ->
  port_of (environ w) = Some p ->
  accepts_all lib ->
  exists sent ops,
    post_api_leads lib w payload s
    = (Success (mkCreated true lead_id sent), mkState st' (network s ++ ops)%list).
Proof.
  intros Hv Hre Hdb Hp Hacc. unfold post_api_leads. rewrite Hv.
  rewrite (create_lead_stored lead lead' lead_id st' s Hre Hdb).
  match goal with
  | |- context [send_email lib w ?su ?bo ?to ?cc ?s0] =>
      destruct (send_email_returns p su bo to cc s0 Hp Hacc) as (sent & ops & ->)
  end.
  simpl. eauto.
Qed.

(** When the answer says the email was sent, the message handed to the
    relay carries the subject and the body composed for this lead and
    this identifier. *)
Lemma notification_carries_template payload lead lead' lead_id st' r
    (s s' : state Store) :
  validate_Lead (email_validator lib) (lax_int lib) payload = inr lead ->
  validate_Lead (email_validator lib) (lax_int lib) (model_dump lead) = inr lead' ->
  create_document w (store s) "lead" lead = (inr lead_id, st') ->
  post_api_leads lib w payload s = (Success r, s') ->
  email_sent r = true ->
  exists port msg,
    head (headers msg) = Some ("Subject", email_subject lead) /\
    content msg = email_body lead lead_id /\
    network s'
    = (network s ++
       [Connect (default "" (environ w !! "SMTP_HOST")) port; StartTLS;
        Login (default "" (environ w !! "SMTP_USER"))
              (default "" (environ w !! "SMTP_PASS"));
        SendMessage msg; Quit])%list.
Proof.
  intros Hv Hre Hdb Hpost Hsent. unfold post_api_leads in Hpost.
  rewrite Hv, (create_lead_stored lead lead' lead_id st' s Hre Hdb) in Hpost.
  destruct (send_email _ _ _ _ _ _ _) as [[sent | e] s1] eqn:Hsend.
  - injection Hpost as <- <-. simpl in Hsent. subst sent.
    apply send_email_true_inv in Hsend as (_ & port & msg & _ & Hh & Hc & ->).
    exists port, msg. auto.
  - destruct e; discriminate.
Qed.

(** A stored lead is answered with a plain 500 when the port does not
    read as an integer: the exception of the sender reaches the
    framework. *)
Lemma intake_bad_port payload lead lead' lead_id st' (s : state Store) :
  validate_Lead (email_validator lib) (lax_int lib) payload = inr lead ->
  validate_Lead (email_validator lib) (lax_int lib) (model_dump lead) = inr lead' ->
  create_document w (store s) "lead" lead = (inr lead_id, st') ->
  port_of (environ w) = None ->
  post_api_leads lib w payload s = (InternalServerError, mkState st' (network s)).
Proof.
  intros Hv Hre Hdb Hp. unfold post_api_leads. rewrite Hv.
  rewrite (create_lead_stored lead lead' lead_id st' s Hre Hdb).
  match goal with
  | |- context [send_email lib w ?su ?bo ?to ?cc ?s0] =>
      destruct (send_email_bad_port su bo to cc s0 Hp) as [e He];
      pose proof (send_email_raise_kind su bo to cc s0 _ e He) as [msg ->];
      rewrite He; reflexivity
  end.
Qed.

End Handler.

Lemma append_cancel_l (p a b : string) : p +:+ a = p +:+ b -> a = b.
Proof.
  induction p as [| c p IH]; simpl; [trivial |].
  intros H. injection H as H. auto.
Qed.



End MainFacts.

(* ===================================================================== *)
(** ** The model on concrete requests                                      *)
(* ===================================================================== *)

Module Scenarios.

Import Schemas Main Sample.

Example int_of_str_digits : Py.int_of_str "587" = Some 587.
Proof. reflexivity. Qed.

Example int_of_str_spaces_underscore : Py.int_of_str " 5_87 " = Some 587.
Proof. reflexivity. Qed.

Example int_of_str_negative : Py.int_of_str "-12" = Some (-12).
Proof. reflexivity. Qed.

Example int_of_str_empty : Py.int_of_str "" = None.
Proof. reflexivity. Qed.

Example int_of_str_word : Py.int_of_str "smtp" = None.
Proof. reflexivity. Qed.

Example int_of_str_double_underscore : Py.int_of_str "5__87" = None.
Proof. reflexivity. Qed.

Example str_int_small : Py.str_int 8 = "8" /\ Py.str_int 17 = "17" /\ Py.str_int 0 = "0".
Proof. repeat split. Qed.

Example str_int_negative : Py.str_int (-120) = "-120".
Proof. reflexivity. Qed.

Example join_three : Py.join ", " ["Ajedrez"; "Teatro"; "Arte"] = "Ajedrez, Teatro, Arte".
Proof. reflexivity. Qed.

(** Scenario A: mail configured, store available. *)
Example scenario_A_response :
  fst (post_api_leads lib world_ok (request (RInt 8)) st_up)
  = Success (mkCreated true "doc-0" true).
Proof. vm_compute. reflexivity. Qed.

Example scenario_A_headers :
  map headers (sent_messages (network (snd (post_api_leads lib world_ok
                                              (request (RInt 8)) st_up))))
  = [[("Subject", "Nueva Acrópolis Lima - Lead Kids (Kids) - San Isidro");
      ("From", "mailer");
      ("To", "cursos@acropolisperu.org");
      ("Cc", "sanisidro@example.org")]].
Proof. vm_compute. reflexivity. Qed.

(** Scenario B: the child is two years old. *)
Example scenario_B :
  post_api_leads lib world_ok (request (RInt 2)) st_up
  = (RequestValidationError [mkError "child_age" None (GreaterThanEqual 3)], st_up).
Proof. vm_compute. reflexivity. Qed.

(** Scenario C: no mail variable is set. *)
Example scenario_C :
  post_api_leads lib world_no_mail (request (RInt 8)) st_up
  = (Success (mkCreated true "doc-0" false),
     mkState (Database.mkStore true [("doc-0", ("lead", ana))]) []).
Proof. vm_compute. reflexivity. Qed.

(** Scenario D: the store is unavailable. *)
Example scenario_D :
  post_api_leads lib world_ok (request (RInt 8)) st_down
  = (HTTPError 500 "Database error: storage unavailable", st_down).
Proof. vm_compute. reflexivity. Qed.

(** Scenario E: an unknown location; the message has no [Cc]. *)
Example scenario_E_response :
  fst (post_api_leads lib world_ok atlantis_request st_up)
  = Success (mkCreated true "doc-0" true).
Proof. vm_compute. reflexivity. Qed.

Example scenario_E_headers :
  map headers (sent_messages (network (snd (post_api_leads lib world_ok
                                              atlantis_request st_up))))
  = [[("Subject", "Nueva Acrópolis Lima - Lead Kids (Kids) - Atlantis");
      ("From", "mailer");
      ("To", "cursos@acropolisperu.org")]].
Proof. vm_compute. reflexivity. Qed.

(** The relay cannot be reached: the lead is stored and acknowledged, one
    connection was attempted. *)
Example relay_unreachable :
  post_api_leads lib world_relay_down (request (RInt 8)) st_up
  = (Success (mkCreated true "doc-0" false),
     mkState (Database.mkStore true [("doc-0", ("lead", ana))])
       [Connect "smtp.example.org" 587]).
Proof. vm_compute. reflexivity. Qed.

(** The relay refuses the login: the session is left, nothing is sent. *)
Example login_refused :
  fst (post_api_leads lib world_bad_login (request (RInt 8)) st_up)
  = Success (mkCreated true "doc-0" false) /\
  network (snd (post_api_leads lib world_bad_login (request (RInt 8)) st_up))
  = [Connect "smtp.example.org" 587; StartTLS; Login "mailer" "secret"; Quit].
Proof. split; vm_compute; reflexivity. Qed.

(** The relay is configured and reachable, the port is not a number: the
    lead is stored and the answer is a plain 500. *)
Example port_not_a_number :
  post_api_leads lib world_bad_port (request (RInt 8)) st_up
  = (InternalServerError,
     mkState (Database.mkStore true [("doc-0", ("lead", ana))]) []).
Proof. vm_compute. reflexivity. Qed.

(** Two identical submissions are two documents. *)
Example no_deduplication :
  Database.documents
    (store (snd (post_api_leads lib world_no_mail (request (RInt 8))
                   (snd (post_api_leads lib world_no_mail (request (RInt 8)) st_up)))))
  = [("doc-0", ("lead", ana)); ("doc-1", ("lead", ana))].
Proof. vm_compute. reflexivity. Qed.

End Scenarios.

(* ===================================================================== *)
(** ** The intake workflow: validation, persistence, notification          *)
(* ===================================================================== *)

Module Properties.

Import Schemas Main SchemasFacts MainFacts.

(** C1: for every valid submission whose insert succeeds the endpoint is
    to answer [ok: true] with the identifier of the gateway and an
    [email_sent] flag, whatever happens to the email.  The handler does
    not achieve this when the mail variables are present but blank: the
    port is converted to an integer before the configuration is checked
    and outside the [try], the conversion of the blank port raises, and
    the stored lead is answered with a plain 500. *)
Theorem stored_lead_not_acknowledged_on_blank_port :
  validate_Lead (email_validator Sample.lib) (lax_int Sample.lib)
    (Sample.request (RInt 8)) = inr Sample.ana /\
  post_api_leads Sample.lib Sample.world_blank_mail (Sample.request (RInt 8)) Sample.st_up
  = (InternalServerError,
     mkState (Database.mkStore true [("doc-0", ("lead", Sample.ana))]) []).
Proof. split; vm_compute; reflexivity. Qed.

(** C2: a submission whose [child_age] is an integer below 3 or above 17
    is answered with the validation error of the framework (status 422),
    the error on [child_age] is among those reported, and the state is
    left as it was: nothing is stored and nothing is sent. *)
Theorem age_out_of_range_rejected {Store : Type} (lib : Libraries) (w : World Store)
    (payload : gmap string raw) (n : Z) (s : state Store) :
  payload !! "child_age" = Some (RInt n) ->
  n < 3 \/ 17 < n ->
  exists errs,
    post_api_leads lib w payload s = (RequestValidationError errs, s) /\
    status (RequestValidationError errs) = 422 /\
    mkError "child_age" None
      (if n <? 3 then GreaterThanEqual 3 else LessThanEqual 17) ∈ errs.
Proof.
  intros Hage Hn.
  destruct (validate_Lead_age_refused (email_validator lib) (lax_int lib)
              payload (RInt n) _ Hage
              (validate_int_out_of_range (lax_int lib) 3 17 n ltac:(lia) Hn))
    as (errs & Hv & Hin).
  exists errs. unfold post_api_leads. rewrite Hv. auto.
Qed.

Lemma age_out_of_range_rejected_witness :
  Sample.request (RInt 2) !! "child_age" = Some (RInt 2) /\
  (2 < 3 \/ 17 < 2) /\
  exists errs,
    post_api_leads Sample.lib Sample.world_ok (Sample.request (RInt 2)) Sample.st_up
    = (RequestValidationError errs, Sample.st_up) /\
    status (RequestValidationError errs) = 422 /\
    mkError "child_age" None (GreaterThanEqual 3) ∈ errs.
Proof.
  split; [reflexivity |]. split; [left; lia |].
  apply (age_out_of_range_rejected Sample.lib Sample.world_ok
           (Sample.request (RInt 2)) 2 Sample.st_up); [reflexivity | left; lia].
Defined.

(** C3: in an execution in which the gateway is called and raises, the
    endpoint answers with status 500 and the log of network operations is
    what it was before the request: the sender is never reached. *)
Theorem storage_failure_skips_notification {Store : Type} (lib : Libraries)
    (w : World Store) (payload : gmap string raw) (lead lead' : Lead)
    (msg : string) (st' : Store) (s : state Store) :
  validate_Lead (email_validator lib) (lax_int lib) payload = inr lead ->
  validate_Lead (email_validator lib) (lax_int lib) (model_dump lead) = inr lead' ->
  create_document w (store s) "lead" lead = (inl msg, st') ->
  exists detail,
    post_api_leads lib w payload s = (HTTPError 500 detail, mkState st' (network s)) /\
    network (snd (post_api_leads lib w payload s)) = network s.
Proof.
  intros Hv Hre Hdb. exists ("Database error: " +:+ msg).
  unfold post_api_leads. rewrite Hv.
  rewrite (create_lead_storage_failure lib w lead lead' msg st' s Hre Hdb).
  split; reflexivity.
Qed.

Lemma storage_failure_skips_notification_witness :
  validate_Lead (email_validator Sample.lib) (lax_int Sample.lib)
    (Sample.request (RInt 8)) = inr Sample.ana /\
  validate_Lead (email_validator Sample.lib) (lax_int Sample.lib)
    (model_dump Sample.ana) = inr Sample.ana /\
  create_document Sample.world_ok (store Sample.st_down) "lead" Sample.ana
  = (inl "storage unavailable", Database.mkStore false []) /\
  exists detail,
    post_api_leads Sample.lib Sample.world_ok (Sample.request (RInt 8)) Sample.st_down
    = (HTTPError 500 detail, mkState (Database.mkStore false []) (network Sample.st_down)) /\
    network (snd (post_api_leads Sample.lib Sample.world_ok
                    (Sample.request (RInt 8)) Sample.st_down))
    = network Sample.st_down.
Proof.
  split; [vm_compute; reflexivity |].
  split; [vm_compute; reflexivity |].
  split; [vm_compute; reflexivity |].
  apply (storage_failure_skips_notification Sample.lib Sample.world_ok
           (Sample.request (RInt 8)) Sample.ana Sample.ana
           "storage unavailable" (Database.mkStore false []) Sample.st_down);
    vm_compute; reflexivity.
Defined.

(** C4: the sender is to return a boolean and never let an exception
    reach its caller.  It does raise: with a blank port setting the
    conversion at the top of the function, which is outside the [try],
    raises before anything else is looked at. *)
Theorem send_email_raises_on_blank_port :
  send_email Sample.lib Sample.world_blank_mail "subject" "body"
    ["cursos@acropolisperu.org"] None Sample.st_up
  = (Raise (Exception "ValueError: invalid literal for int() with base 10"),
     Sample.st_up).
Proof. vm_compute. reflexivity. Qed.




(** C6: the resolver is a total lookup.  For each of the five names
    "San Isidro", "La Molina", "Pueblo Libre", "Breña" and "San Miguel" it
    returns what the environment holds under the variable of that name,
    and for every other string it returns nothing; names that differ in
    case or in the accent are other strings. *)
Theorem get_sede_cc_email_lookup (env : gmap string string) (sede : string) :
  get_sede_cc_email env sede =
    (if decide (sede = "San Isidro") then env !! "SEDE_SAN_ISIDRO_EMAIL"
     else if decide (sede = "La Molina") then env !! "SEDE_LA_MOLINA_EMAIL"
     else if decide (sede = "Pueblo Libre") then env !! "SEDE_PUEBLO_LIBRE_EMAIL"
     else if decide (sede = "Breña") then env !! "SEDE_BRENA_EMAIL"
     else if decide (sede = "San Miguel") then env !! "SEDE_SAN_MIGUEL_EMAIL"
     else None) /\
  get_sede_cc_email env "san isidro" = None /\
  get_sede_cc_email env "SAN MIGUEL" = None /\
  get_sede_cc_email env "Brena" = None /\
  get_sede_cc_email env "" = None.
Proof.
  split; [| repeat split; reflexivity].
  repeat case_decide; subst; try reflexivity.
  unfold get_sede_cc_email.
  assert (Hnone : key_map !! sede = None).
  { unfold key_map. apply not_elem_of_list_to_map_1. simpl.
    rewrite !elem_of_cons, elem_of_nil. intuition congruence. }
  by rewrite Hnone.
Qed.

(** C7, as first stated: every accepted submission has non-empty
    required fields.  A submission whose name, phone, child name, program
    and location are all the empty string is accepted. *)
Lemma blank_fields_accepted :
  exists lead,
    validate_Lead (email_validator Sample.lib) (lax_int Sample.lib)
      Sample.blank_request = inr lead /\
    parent_name lead = "" /\ parent_phone lead = "" /\ child_name lead = "" /\
    program lead = "" /\ sede lead = "".
Proof. eexists. split; [vm_compute; reflexivity |]. repeat split. Qed.

(** C7: every accepted submission has its seven required fields present
    in the payload: the five text fields as strings, which the record
    holds unchanged and which may be empty; [parent_email] as a string
    that the email-syntax validator accepts, the record holding the
    validated address; [child_age] as a value that reads as an integer,
    which lies within 3 and 17. *)
Theorem accepted_lead_fields (ev : string -> option string) (li : raw -> option Z)
    (payload : gmap string raw) (lead : Lead) :
  validate_Lead ev li payload = inr lead ->
  payload !! "parent_name" = Some (RStr (parent_name lead)) /\
  (exists a, payload !! "parent_email" = Some (RStr a) /\ ev a = Some (parent_email lead)) /\
  payload !! "parent_phone" = Some (RStr (parent_phone lead)) /\
  payload !! "child_name" = Some (RStr (child_name lead)) /\
  (exists r, payload !! "child_age" = Some r /\ coerce_int li r = Some (child_age lead)) /\
  3 <= child_age lead <= 17 /\
  payload !! "program" = Some (RStr (program lead)) /\
  payload !! "sede" = Some (RStr (sede lead)).
Proof.
  intros H.
  apply validate_Lead_inv in H as (Hn & He & Hp & Hc & Ha & Hpr & Hs).
  apply required_inv in He as (re & Hre & He).
  apply validate_email_inv in He as (a & -> & He).
  apply required_inv in Ha as (ra & Hra & Ha).
  apply validate_int_inv in Ha as [Ha Hrange].
  repeat split; eauto using required_str_present; lia.
Qed.

Lemma accepted_lead_fields_witness :
  validate_Lead Sample.email_validator Sample.lax_int (Sample.request (RStr "8"))
  = inr Sample.ana /\
  Sample.request (RStr "8") !! "parent_name" = Some (RStr "Ana") /\
  (exists a, Sample.request (RStr "8") !! "parent_email" = Some (RStr a)
             /\ Sample.email_validator a = Some "ana@x.com") /\
  (exists r, Sample.request (RStr "8") !! "child_age" = Some r
             /\ coerce_int Sample.lax_int r = Some 8) /\
  3 <= 8 <= 17.
Proof.
  assert (Hv : validate_Lead Sample.email_validator Sample.lax_int
                 (Sample.request (RStr "8")) = inr Sample.ana)
    by (vm_compute; reflexivity).
  split; [exact Hv |].
  destruct (accepted_lead_fields Sample.email_validator Sample.lax_int
              (Sample.request (RStr "8")) Sample.ana Hv)
    as (Hn & He & _ & _ & Ha & Hr & _).
  split; [exact Hn |]. split; [exact He |]. split; [exact Ha | exact Hr].
Defined.


(** C9, as first stated: the answer to a storage failure is the same
    whatever the storage exception was.  Two storage exceptions with
    different texts are answered differently, each answer carrying the
    whole text of its exception. *)
Lemma storage_error_text_reaches_caller :
  fst (post_api_leads Sample.lib
         (Sample.world_db_error "pool timeout at 10.0.0.7:27017")
         (Sample.request (RInt 8)) Sample.st_up)
  = HTTPError 500 "Database error: pool timeout at 10.0.0.7:27017" /\
  fst (post_api_leads Sample.lib
         (Sample.world_db_error "authentication failed for user admin")
         (Sample.request (RInt 8)) Sample.st_up)
  = HTTPError 500 "Database error: authentication failed for user admin" /\
  fst (post_api_leads Sample.lib
         (Sample.world_db_error "pool timeout at 10.0.0.7:27017")
         (Sample.request (RInt 8)) Sample.st_up)
  <> fst (post_api_leads Sample.lib
            (Sample.world_db_error "authentication failed for user admin")
            (Sample.request (RInt 8)) Sample.st_up).
Proof.
  split; [vm_compute; reflexivity |]. split; [vm_compute; reflexivity |].
  vm_compute. discriminate.
Qed.

(** C9: the answer to a storage failure has status 500 and its detail is
    "Database error: " followed by the text of the storage exception, the
    whole of it.  The answer depends on the exception through that text
    alone: two exceptions are answered alike exactly when their texts are
    the same. *)
Theorem storage_error_detail {Store : Type} (lib : Libraries)
    (w1 w2 : World Store) (payload : gmap string raw) (lead lead' : Lead)
    (m1 m2 : string) (st1 st2 : Store) (s : state Store) :
  validate_Lead (email_validator lib) (lax_int lib) payload = inr lead ->
  validate_Lead (email_validator lib) (lax_int lib) (model_dump lead) = inr lead' ->
  create_document w1 (store s) "lead" lead = (inl m1, st1) ->
  create_document w2 (store s) "lead" lead = (inl m2, st2) ->
  fst (post_api_leads lib w1 payload s) = HTTPError 500 ("Database error: " +:+ m1) /\
  fst (post_api_leads lib w2 payload s) = HTTPError 500 ("Database error: " +:+ m2) /\
  (fst (post_api_leads lib w1 payload s) = fst (post_api_leads lib w2 payload s)
   <-> m1 = m2).
Proof.
  intros Hv Hre H1 H2.
  assert (E1 : fst (post_api_leads lib w1 payload s)
               = HTTPError 500 ("Database error: " +:+ m1)).
  { unfold post_api_leads. rewrite Hv.
    by rewrite (create_lead_storage_failure lib w1 lead lead' m1 st1 s Hre H1). }
  assert (E2 : fst (post_api_leads lib w2 payload s)
               = HTTPError 500 ("Database error: " +:+ m2)).
  { unfold post_api_leads. rewrite Hv.
    by rewrite (create_lead_storage_failure lib w2 lead lead' m2 st2 s Hre H2). }
  split; [exact E1 |]. split; [exact E2 |].
  rewrite E1, E2. split.
  - intros H. injection H as H. exact (append_cancel_l _ _ _ H).
  - by intros ->.
Qed.

Lemma storage_error_detail_witness :
  create_document (Sample.world_db_error "timeout") (store Sample.st_up) "lead" Sample.ana
  = (inl "timeout", store Sample.st_up) /\
  create_document (Sample.world_db_error "refused") (store Sample.st_up) "lead" Sample.ana
  = (inl "refused", store Sample.st_up) /\
  fst (post_api_leads Sample.lib (Sample.world_db_error "timeout")
         (Sample.request (RInt 8)) Sample.st_up)
  = HTTPError 500 "Database error: timeout" /\
  fst (post_api_leads Sample.lib (Sample.world_db_error "refused")
         (Sample.request (RInt 8)) Sample.st_up)
  = HTTPError 500 "Database error: refused" /\
  (fst (post_api_leads Sample.lib (Sample.world_db_error "timeout")
          (Sample.request (RInt 8)) Sample.st_up)
   = fst (post_api_leads Sample.lib (Sample.world_db_error "refused")
            (Sample.request (RInt 8)) Sample.st_up)
   <-> "timeout" = "refused").
Proof.
  split; [reflexivity |]. split; [reflexivity |].
  apply (storage_error_detail Sample.lib (Sample.world_db_error "timeout")
           (Sample.world_db_error "refused") (Sample.request (RInt 8))
           Sample.ana Sample.ana "timeout" "refused"
           (store Sample.st_up) (store Sample.st_up) Sample.st_up);
    vm_compute; reflexivity.
Defined.



End Properties.

(* ===================================================================== *)
(** ** More on the validation of a lead                                    *)
(* ===================================================================== *)

Module ValidationProperties.

Import Schemas SchemasFacts.

Lemma errors_of_ap {A B : Type} (f : checked (A -> B)) (x : checked A) :
  errors_of (ap f x) = (errors_of f ++ errors_of x)%list.
Proof.
  destruct f as [ef | g], x as [ex | a]; simpl; try reflexivity.
  by rewrite app_nil_r.
Qed.

Lemma reported_error_rejects {A : Type} (x : checked A) e :
  e ∈ errors_of x -> exists errs, x = inl errs /\ e ∈ errs.
Proof.
  destruct x as [errs | a]; simpl; [eauto |].
  intros H. by apply elem_of_nil in H.
Qed.

Section Fields.

Variable email_validator : string -> option string.
Variable lax_int : raw -> option Z.

(** The errors of a construction are those of its ten fields. *)
Lemma validate_Lead_reports data e :
  e ∈ errors_of (validate_Lead email_validator lax_int data) <->
  e ∈ errors_of (required "parent_name" validate_str data) \/
  e ∈ errors_of (required "parent_email" (validate_email email_validator) data) \/
  e ∈ errors_of (required "parent_phone" validate_str data) \/
  e ∈ errors_of (required "child_name" validate_str data) \/
  e ∈ errors_of (required "child_age" (validate_int lax_int 3 17) data) \/
  e ∈ errors_of (required "program" validate_str data) \/
  e ∈ errors_of (required "sede" validate_str data) \/
  e ∈ errors_of (str_list "courses" data) \/
  e ∈ errors_of (optional "message" None validate_opt_str data) \/
  e ∈ errors_of (optional "source" None validate_opt_str data).
Proof.
  unfold validate_Lead. rewrite !errors_of_ap, !elem_of_app. simpl.
  rewrite elem_of_nil. tauto.
Qed.

Lemma required_missing {A : Type} name (v : raw -> error_type + A) data :
  data !! name = None ->
  errors_of (required name v data) = [mkError name None Missing].
Proof. unfold required. by intros ->. Qed.

Lemma required_refused {A : Type} name (v : raw -> error_type + A) data r e :
  data !! name = Some r -> v r = inl e ->
  errors_of (required name v data) = [mkError name None e].
Proof. unfold required. by intros -> ->. Qed.

Lemma validate_str_not_str r : is_str r = false -> validate_str r = inl StringType.
Proof. by destruct r. Qed.

Lemma validate_email_not_str r :
  is_str r = false -> validate_email email_validator r = inl StringType.
Proof. by destruct r. Qed.

(** The items that pass are the strings themselves. *)
Lemma validate_items_inv name i items xs :
  validate_items name i items = inr xs -> items = map RStr xs.
Proof.
  revert i xs. induction items as [| r rest IH]; intros i xs; simpl.
  - by intros [= <-].
  - intros H. apply ap_inr_inv in H as (g & ys & Hg & Hrest & ->).
    destruct r; simpl in Hg; try discriminate. injection Hg as <-.
    by rewrite (IH _ _ Hrest).
Qed.

(** An item that is not a string is reported with its position. *)
Lemma validate_items_bad_item name i items k r :
  items !! k = Some r -> is_str r = false ->
  mkError name (Some (i + k)%nat) StringType ∈ errors_of (validate_items name i items).
Proof.
  revert i k. induction items as [| r0 rest IH]; intros i k Hk Hr; [done |].
  cbn [validate_items]. rewrite !errors_of_ap, !elem_of_app. destruct k as [| k].
  - injection Hk as ->. left. right.
    rewrite (validate_str_not_str r Hr). simpl.
    rewrite Nat.add_0_r. apply list_elem_of_singleton. reflexivity.
  - right. replace (i + S k)%nat with (S i + k)%nat by lia.
    by apply IH.
Qed.

(** Acceptance, field by field, in both directions. *)
Lemma validate_Lead_inr_iff data l :
  validate_Lead email_validator lax_int data = inr l <->
  required "parent_name" validate_str data = inr (parent_name l) /\
  required "parent_email" (validate_email email_validator) data = inr (parent_email l) /\
  required "parent_phone" validate_str data = inr (parent_phone l) /\
  required "child_name" validate_str data = inr (child_name l) /\
  required "child_age" (validate_int lax_int 3 17) data = inr (child_age l) /\
  required "program" validate_str data = inr (program l) /\
  required "sede" validate_str data = inr (sede l) /\
  str_list "courses" data = inr (courses l) /\
  optional "message" None validate_opt_str data = inr (message l) /\
  optional "source" None validate_opt_str data = inr (source l).
Proof.
  split.
  - unfold validate_Lead. intros H.
    repeat match goal with
           | H : ap _ _ = inr _ |- _ =>
               apply ap_inr_inv in H; destruct H as (? & ? & H & ? & ?)
           end.
    injection H as <-. subst. simpl. repeat split; assumption.
  - intros (H1 & H2 & H3 & H4 & H5 & H6 & H7 & H8 & H9 & H10).
    unfold validate_Lead.
    rewrite H1, H2, H3, H4, H5, H6, H7, H8, H9, H10. simpl. by destruct l.
Qed.

End Fields.

Import Main.

(** A reported error makes the endpoint answer 422 and leave the state as
    it was. *)
Lemma post_rejects {Store : Type} (lib : Libraries) (w : World Store)
    (payload : gmap string raw) (s : state Store) e :
  e ∈ errors_of (validate_Lead (email_validator lib) (lax_int lib) payload) ->
  exists errs,
    post_api_leads lib w payload s = (RequestValidationError errs, s) /\ e ∈ errs.
Proof.
  intros H. apply reported_error_rejects in H as (errs & Hv & He).
  exists errs. unfold post_api_leads. by rewrite Hv.
Qed.

(** X1: a submission that lacks one of the seven required fields is
    answered 422, the missing field is named among the errors whatever the
    other fields hold, and nothing is stored or sent. *)
Theorem missing_required_field_reported {Store : Type} (lib : Libraries)
    (w : World Store) (payload : gmap string raw) (name : string) (s : state Store) :
  name ∈ required_fields ->
  payload !! name = None ->
  exists errs,
    post_api_leads lib w payload s = (RequestValidationError errs, s) /\
    mkError name None Missing ∈ errs.
Proof.
  intros Hname Hmiss. apply post_rejects. apply validate_Lead_reports.
  unfold required_fields in Hname. rewrite !elem_of_cons, elem_of_nil in Hname.
  destruct Hname as [-> | [-> | [-> | [-> | [-> | [-> | [-> | []]]]]]]];
    rewrite (required_missing _ _ _ Hmiss), list_elem_of_singleton; tauto.
Qed.

Lemma missing_required_field_reported_witness :
  "sede" ∈ required_fields /\
  delete "sede" (Sample.request (RInt 8)) !! "sede" = None /\
  exists errs,
    post_api_leads Sample.lib Sample.world_ok
      (delete "sede" (Sample.request (RInt 8))) Sample.st_up
    = (RequestValidationError errs, Sample.st_up) /\
    mkError "sede" None Missing ∈ errs.
Proof.
  assert (Hin : "sede" ∈ required_fields).
  { unfold required_fields. rewrite !elem_of_cons. tauto. }
  split; [exact Hin |]. split; [reflexivity |].
  apply (missing_required_field_reported Sample.lib Sample.world_ok
           (delete "sede" (Sample.request (RInt 8))) "sede" Sample.st_up Hin).
  reflexivity.
Defined.

(** X2: a required text field (the email included) whose value is not a
    string, a number or [null] for instance, is answered 422 with a
    string-type error on that field; nothing is converted to text. *)
Theorem non_string_text_field_reported {Store : Type} (lib : Libraries)
    (w : World Store) (payload : gmap string raw) (name : string) (r : raw)
    (s : state Store) :
  name ∈ text_fields ->
  payload !! name = Some r ->
  is_str r = false ->
  exists errs,
    post_api_leads lib w payload s = (RequestValidationError errs, s) /\
    mkError name None StringType ∈ errs.
Proof.
  intros Hname Hr Hns. apply post_rejects. apply validate_Lead_reports.
  pose proof (validate_str_not_str r Hns) as Hs.
  pose proof (validate_email_not_str (email_validator lib) r Hns) as He.
  unfold text_fields in Hname. rewrite !elem_of_cons, elem_of_nil in Hname.
  destruct Hname as [-> | [-> | [-> | [-> | [-> | [-> | []]]]]]].
  2: rewrite (required_refused _ _ _ _ _ Hr He), list_elem_of_singleton; tauto.
  all: rewrite (required_refused _ _ _ _ _ Hr Hs), list_elem_of_singleton; tauto.
Qed.

Lemma non_string_text_field_reported_witness :
  "parent_phone" ∈ text_fields /\
  <["parent_phone" := RInt 999]> (Sample.request (RInt 8)) !! "parent_phone"
  = Some (RInt 999) /\
  is_str (RInt 999) = false /\
  exists errs,
    post_api_leads Sample.lib Sample.world_ok
      (<["parent_phone" := RInt 999]> (Sample.request (RInt 8))) Sample.st_up
    = (RequestValidationError errs, Sample.st_up) /\
    mkError "parent_phone" None StringType ∈ errs.
Proof.
  assert (Hin : "parent_phone" ∈ text_fields).
  { unfold text_fields. rewrite !elem_of_cons. tauto. }
  split; [exact Hin |]. split; [reflexivity |]. split; [reflexivity |].
  apply (non_string_text_field_reported Sample.lib Sample.world_ok
           (<["parent_phone" := RInt 999]> (Sample.request (RInt 8)))
           "parent_phone" (RInt 999) Sample.st_up Hin); reflexivity.
Defined.

(** X3: a key of the payload that is not one of the ten fields is ignored:
    adding it, with any value, changes neither the answer nor the resulting
    state. *)
Theorem unknown_keys_ignored {Store : Type} (lib : Libraries) (w : World Store)
    (payload : gmap string raw) (key : string) (v : raw) (s : state Store) :
  key ∉ field_names ->
  post_api_leads lib w (<[key := v]> payload) s = post_api_leads lib w payload s.
Proof.
  intros Hkey.
  assert (Hv : validate_Lead (email_validator lib) (lax_int lib) (<[key := v]> payload)
               = validate_Lead (email_validator lib) (lax_int lib) payload).
  { unfold field_names, required_fields in Hkey. simpl in Hkey.
    rewrite !not_elem_of_cons in Hkey.
    destruct Hkey as (? & ? & ? & ? & ? & ? & ? & ? & ? & ? & _).
    unfold validate_Lead, required, optional, str_list.
    by rewrite !lookup_insert_ne by done. }
  unfold post_api_leads. by rewrite Hv.
Qed.

Lemma unknown_keys_ignored_witness :
  ("is_admin" ∉ field_names) /\
  post_api_leads Sample.lib Sample.world_ok
    (<["is_admin" := RBool true]> (Sample.request (RInt 8))) Sample.st_up
  = post_api_leads Sample.lib Sample.world_ok (Sample.request (RInt 8)) Sample.st_up.
Proof.
  assert (Hout : "is_admin" ∉ field_names).
  { unfold field_names, required_fields. simpl.
    rewrite !not_elem_of_cons. repeat split; try discriminate. apply not_elem_of_nil. }
  split; [exact Hout |].
  exact (unknown_keys_ignored Sample.lib Sample.world_ok (Sample.request (RInt 8))
           "is_admin" (RBool true) Sample.st_up Hout).
Defined.

(** X4: the bounds of the age are inclusive and the age is checked on its
    own: in an accepted submission, replacing the age by any integer from 3
    to 17 gives an accepted submission that differs in the age alone. *)
Theorem age_within_bounds_accepted (ev : string -> option string)
    (li : raw -> option Z) (payload : gmap string raw) (l : Lead) (n : Z) :
  validate_Lead ev li payload = inr l ->
  3 <= n <= 17 ->
  validate_Lead ev li (<["child_age" := RInt n]> payload) = inr (with_age l n).
Proof.
  intros Hv Hn. apply validate_Lead_inr_iff in Hv.
  destruct Hv as (H1 & H2 & H3 & H4 & _ & H6 & H7 & H8 & H9 & H10).
  apply validate_Lead_inr_iff. unfold required, optional, str_list in *.
  rewrite lookup_insert_eq, !lookup_insert_ne by done.
  rewrite (validate_int_in_range li 3 17 n Hn). simpl.
  repeat split; assumption.
Qed.

Lemma age_within_bounds_accepted_witness :
  validate_Lead Sample.email_validator Sample.lax_int (Sample.request (RInt 8))
  = inr Sample.ana /\
  3 <= 17 <= 17 /\
  validate_Lead Sample.email_validator Sample.lax_int
    (<["child_age" := RInt 17]> (Sample.request (RInt 8)))
  = inr (with_age Sample.ana 17).
Proof.
  assert (Hv : validate_Lead Sample.email_validator Sample.lax_int
                 (Sample.request (RInt 8)) = inr Sample.ana)
    by (vm_compute; reflexivity).
  split; [exact Hv |]. split; [lia |].
  exact (age_within_bounds_accepted Sample.email_validator Sample.lax_int
           (Sample.request (RInt 8)) Sample.ana 17 Hv ltac:(lia)).
Defined.

(** X5: in an accepted submission the optional fields are what the payload
    holds and nothing else: the message and the source are the strings
    given, and nothing when the key is absent or [null]; the courses are
    the items of the list given, all of them strings and in order, and the
    empty list when the key is absent. *)
Theorem accepted_optional_fields (ev : string -> option string)
    (li : raw -> option Z) (payload : gmap string raw) (l : Lead) :
  validate_Lead ev li payload = inr l ->
  message l = match payload !! "message" with
              | Some (RStr m) => Some m
              | _ => None
              end /\
  source l = match payload !! "source" with
             | Some (RStr m) => Some m
             | _ => None
             end /\
  match payload !! "courses" with
  | None => courses l = []
  | Some r => r = RList (map RStr (courses l))
  end.
Proof.
  intros Hv. apply validate_Lead_inr_iff in Hv.
  destruct Hv as (_ & _ & _ & _ & _ & _ & _ & H8 & H9 & H10).
  unfold optional, str_list in *.
  split; [| split].
  - destruct (payload !! "message") as [[] |]; simpl in H9; congruence.
  - destruct (payload !! "source") as [[] |]; simpl in H10; congruence.
  - destruct (payload !! "courses") as [[] |]; try discriminate.
    + by rewrite (validate_items_inv _ _ _ _ H8).
    + congruence.
Qed.

Lemma accepted_optional_fields_witness :
  validate_Lead Sample.email_validator Sample.lax_int
    (<["message" := RNull]> (Sample.request (RInt 8))) = inr Sample.ana /\
  message Sample.ana = None /\
  source Sample.ana = None /\
  RList [RStr "Ajedrez"] = RList (map RStr (courses Sample.ana)).
Proof.
  assert (Hv : validate_Lead Sample.email_validator Sample.lax_int
                 (<["message" := RNull]> (Sample.request (RInt 8))) = inr Sample.ana)
    by (vm_compute; reflexivity).
  split; [exact Hv |].
  exact (accepted_optional_fields Sample.email_validator Sample.lax_int
           (<["message" := RNull]> (Sample.request (RInt 8))) Sample.ana Hv).
Defined.

(** X6: a course that is not a string makes the endpoint answer 422, and
    the error names the position of that course in the list. *)
Theorem non_string_course_reported {Store : Type} (lib : Libraries)
    (w : World Store) (payload : gmap string raw) (items : list raw) (k : nat)
    (r : raw) (s : state Store) :
  payload !! "courses" = Some (RList items) ->
  items !! k = Some r ->
  is_str r = false ->
  exists errs,
    post_api_leads lib w payload s = (RequestValidationError errs, s) /\
    mkError "courses" (Some k) StringType ∈ errs.
Proof.
  intros Hc Hk Hr. apply post_rejects. apply validate_Lead_reports.
  do 7 right. left. unfold str_list. rewrite Hc.
  exact (validate_items_bad_item "courses" 0 items k r Hk Hr).
Qed.

Lemma non_string_course_reported_witness :
  <["courses" := RList [RStr "Ajedrez"; RInt 7]]> (Sample.request (RInt 8)) !! "courses"
  = Some (RList [RStr "Ajedrez"; RInt 7]) /\
  [RStr "Ajedrez"; RInt 7] !! 1%nat = Some (RInt 7) /\
  is_str (RInt 7) = false /\
  exists errs,
    post_api_leads Sample.lib Sample.world_ok
      (<["courses" := RList [RStr "Ajedrez"; RInt 7]]> (Sample.request (RInt 8)))
      Sample.st_up
    = (RequestValidationError errs, Sample.st_up) /\
    mkError "courses" (Some 1%nat) StringType ∈ errs.
Proof.
  split; [reflexivity |]. split; [reflexivity |]. split; [reflexivity |].
  apply (non_string_course_reported Sample.lib Sample.world_ok
           (<["courses" := RList [RStr "Ajedrez"; RInt 7]]> (Sample.request (RInt 8)))
           [RStr "Ajedrez"; RInt 7] 1 (RInt 7) Sample.st_up); reflexivity.
Defined.

End ValidationProperties.

(* ===================================================================== *)
(** ** More on the notification sender                                     *)
(* ===================================================================== *)

Module NotificationProperties.

Import Schemas Main MainFacts.
Local Open Scope py_scope.

Section Sender.

Context {Store : Type}.
Variable lib : Libraries.
Variable w : World Store.













End Sender.






End NotificationProperties.

(* ===================================================================== *)
(** ** More on the intake handler                                          *)
(* ===================================================================== *)

Module IntakeProperties.

Import Schemas Main MainFacts NotificationProperties.
Local Open Scope py_scope.

Section Handler.

Context {Store : Type}.
Variable lib : Libraries.
Variable w : World Store.

Lemma keeps_ret {A : Type} (a : A) : keeps_store (@ret Store A a).
Proof. intros s. exists (Return a), []. unfold ret. rewrite app_nil_r. by destruct s. Qed.

Lemma keeps_raise {A : Type} e : keeps_store (@raise Store A e).
Proof. intros s. exists (Raise e), []. unfold raise. rewrite app_nil_r. by destruct s. Qed.

Lemma keeps_bind {A B : Type} (m : M Store A) (k : A -> M Store B) :
  keeps_store m -> (forall a, keeps_store (k a)) -> keeps_store (bind m k).
Proof.
  intros Hm Hk s. unfold bind. destruct (Hm s) as (o & ops & ->).
  destruct o as [a | e].
  - destruct (Hk a (mkState (store s) (network s ++ ops)%list)) as (o' & ops' & ->).
    exists o', (ops ++ ops')%list. cbn [store network]. by rewrite app_assoc.
  - exists (Raise e), ops. reflexivity.
Qed.

Lemma keeps_try_except {A : Type} (m : M Store A) (h : exn -> M Store A) :
  keeps_store m -> (forall e, keeps_store (h e)) -> keeps_store (try_except m h).
Proof.
  intros Hm Hh s. unfold try_except. destruct (Hm s) as (o & ops & ->).
  destruct o as [a | e].
  - exists (Return a), ops. reflexivity.
  - destruct (Hh e (mkState (store s) (network s ++ ops)%list)) as (o' & ops' & ->).
    exists o', (ops ++ ops')%list. cbn [store network]. by rewrite app_assoc.
Qed.

Lemma keeps_set_header msg name value : keeps_store (@set_header Store lib msg name value).
Proof.
  unfold set_header. destruct (header_accepts lib name value);
    [apply keeps_ret | apply keeps_raise].
Qed.

(** The sender never touches the store, whatever it returns or raises. *)
Lemma keeps_send_email subject body to_addrs cc_addrs :
  keeps_store (send_email lib w subject body to_addrs cc_addrs).
Proof.
  unfold send_email. apply keeps_bind.
  { unfold read_port. destruct (Py.int_of_str _); [apply keeps_ret | apply keeps_raise]. }
  intros port. destruct (negb _ || negb _ || negb _); [apply keeps_ret |].
  apply keeps_bind; [apply keeps_set_header | intros m1].
  apply keeps_bind; [apply keeps_set_header | intros m2].
  apply keeps_bind; [apply keeps_set_header | intros m3].
  apply keeps_bind.
  { unfold set_cc. destruct cc_addrs as [[| c cs] |];
      [apply keeps_ret | apply keeps_set_header | apply keeps_ret]. }
  intros m4. apply keeps_bind.
  { unfold set_content. destruct (content_accepts lib body);
      [apply keeps_ret | apply keeps_raise]. }
  intros m5. apply keeps_try_except; [| intros e; apply keeps_ret].
  apply keeps_bind; [| intros []; apply keeps_ret].
  intros s. destruct (smtp_session_effect w (default "" (environ w !! "SMTP_HOST")) port
                        (default "" (environ w !! "SMTP_USER"))
                        (default "" (environ w !! "SMTP_PASS")) m5 s)
    as (o & ops & ->).
  eauto.
Qed.

(** The first statement of the handler returns, or raises a 422. *)
Lemma revalidate_cases lead (s : state Store) :
  revalidate lib lead s = (Return tt, s) \/
  exists detail, revalidate lib lead s = (Raise (HTTPException 422 detail), s).
Proof.
  unfold revalidate, try_except.
  destruct (validate_Lead _ _ (model_dump lead)) as [errs | lead'].
  - right. unfold raise. eauto.
  - left. reflexivity.
Qed.

(** What a returning call of the handler went through. *)
Lemma create_lead_return_inv lead r (s s' : state Store) :
  create_lead lib w lead s = (Return r, s') ->
  ok r = true /\
  exists st',
    create_document w (store s) "lead" lead = (inr (id r), st') /\
    send_email lib w (email_subject lead) (email_body lead (id r))
      [getenv_default (environ w) "LEADS_TO" "cursos@acropolisperu.org"]
      (Some (if Py.truthy_opt (get_sede_cc_email (environ w) (sede lead))
             then [default "" (get_sede_cc_email (environ w) (sede lead))]
             else []))
      (mkState st' (network s))
    = (Return (email_sent r), s').
Proof.
  unfold create_lead. intros H.
  apply bind_return_inv in H as ([] & s1 & Hre & H).
  destruct (revalidate_cases lead s) as [Hok | [d Hbad]];
    [| rewrite Hbad in Hre; discriminate].
  rewrite Hok in Hre. injection Hre as <-.
  apply bind_return_inv in H as (lead_id & s2 & Hdb & H).
  unfold try_except, call_create_document in Hdb.
  destruct (create_document w (store s) "lead" lead) as [[msg | lid] st'] eqn:Hg;
    [discriminate |].
  injection Hdb as -> <-.
  apply bind_return_inv in H as (sent & s3 & Hsend & H).
  unfold ret in H. injection H as <- <-.
  split; [reflexivity |]. exists st'. split; [reflexivity | exact Hsend].
Qed.

(** What the handler raises, when it raises. *)
Lemma create_lead_raise_inv lead e (s s' : state Store) :
  create_lead lib w lead s = (Raise e, s') ->
  (exists d, e = HTTPException 422 d) \/ (exists d, e = HTTPException 500 d)
  \/ (exists m, e = Exception m).
Proof.
  unfold create_lead. intros H.
  apply bind_raise_inv in H as [H | ([] & s1 & _ & H)].
  { destruct (revalidate_cases lead s) as [Hok | [d Hbad]].
    - rewrite Hok in H. discriminate.
    - rewrite Hbad in H. injection H as <- _. eauto. }
  apply bind_raise_inv in H as [H | (lead_id & s2 & _ & H)].
  { unfold try_except, call_create_document in H.
    destruct (create_document w (store s1) "lead" lead) as [[msg | lid] st'];
      [| discriminate].
    unfold raise in H. injection H as <- _. eauto. }
  apply bind_raise_inv in H as [H | (sent & s3 & _ & H)]; [| discriminate].
  apply send_email_raise_kind in H. auto.
Qed.

(** X12: the endpoint answers with status 200, 422 or 500 and no other,
    whatever the payload, the environment, the libraries, the store and the
    relay do. *)
Theorem status_is_200_422_or_500 (payload : gmap string raw) (s : state Store) :
  status (fst (post_api_leads lib w payload s)) = 200 \/
  status (fst (post_api_leads lib w payload s)) = 422 \/
  status (fst (post_api_leads lib w payload s)) = 500.
Proof.
  unfold post_api_leads.
  destruct (validate_Lead _ _ payload) as [errs | lead]; [right; left; reflexivity |].
  destruct (create_lead lib w lead s) as [[r | e] s'] eqn:H; [left; reflexivity |].
  apply create_lead_raise_inv in H as [[d ->] | [[d ->] | [m ->]]]; simpl; auto.
Qed.

(** X13: a success answer is given only for a lead that was stored: the
    payload validated, the gateway was called on the store as it was, with
    the collection ["lead"] and that lead, it returned the identifier of
    the answer, and the store it left is the store after the request. *)
Theorem acknowledged_lead_was_stored (payload : gmap string raw) (r : lead_created)
    (s s' : state Store) :
  post_api_leads lib w payload s = (Success r, s') ->
  ok r = true /\
  exists lead,
    validate_Lead (email_validator lib) (lax_int lib) payload = inr lead /\
    create_document w (store s) "lead" lead = (inr (id r), store s').
Proof.
  unfold post_api_leads.
  destruct (validate_Lead _ _ payload) as [errs | lead]; [discriminate |].
  destruct (create_lead lib w lead s) as [[r0 | e] s0] eqn:H;
    [| destruct e; discriminate].
  intros Heq. injection Heq as -> ->.
  apply create_lead_return_inv in H as (Hok & st' & Hdb & Hsend).
  split; [exact Hok |]. exists lead. split; [reflexivity |].
  destruct (keeps_send_email (email_subject lead) (email_body lead (id r))
              [getenv_default (environ w) "LEADS_TO" "cursos@acropolisperu.org"]
              (Some (if Py.truthy_opt (get_sede_cc_email (environ w) (sede lead))
                     then [default "" (get_sede_cc_email (environ w) (sede lead))]
                     else []))
              (mkState st' (network s))) as (o & ops & Hk).
  rewrite Hk in Hsend. injection Hsend as _ <-. exact Hdb.
Qed.

(** X14: a lead that was stored stays stored: once the insert has
    succeeded, the store after the request is the store the gateway left,
    whether the email was sent, was refused by the relay, or the sender
    raised. *)
Theorem stored_lead_is_kept (payload : gmap string raw) (lead lead' : Lead)
    (lead_id : string) (st' : Store) (s : state Store) :
  validate_Lead (email_validator lib) (lax_int lib) payload = inr lead ->
  validate_Lead (email_validator lib) (lax_int lib) (model_dump lead) = inr lead' ->
  create_document w (store s) "lead" lead = (inr lead_id, st') ->
  store (snd (post_api_leads lib w payload s)) = st'.
Proof.
  intros Hv Hre Hdb. unfold post_api_leads. rewrite Hv.
  rewrite (create_lead_stored lib w lead lead' lead_id st' s Hre Hdb).
  match goal with
  | |- context [send_email lib w ?su ?bo ?to ?cc ?s0] =>
      destruct (keeps_send_email su bo to cc s0) as (o & ops & ->)
  end.
  destruct o as [sent | [c d | errs | m]]; reflexivity.
Qed.

(** X15: a lead that the framework accepted and that does not build again
    from its own dump is answered 422 by the handler itself, with the text
    of the validation error as detail; the gateway is not called and
    nothing is sent. *)
Theorem failed_revalidation_answers_422 (payload : gmap string raw) (lead : Lead)
    (errs : list error_details) (s : state Store) :
  validate_Lead (email_validator lib) (lax_int lib) payload = inr lead ->
  validate_Lead (email_validator lib) (lax_int lib) (model_dump lead) = inl errs ->
  post_api_leads lib w payload s = (HTTPError 422 (show_errors lib errs), s).
Proof.
  intros Hv Hre. unfold post_api_leads. rewrite Hv.
  unfold create_lead, bind, revalidate, try_except. rewrite Hre.
  reflexivity.
Qed.


End Handler.

Lemma acknowledged_lead_was_stored_witness :
  ok (mkCreated true "doc-0" true) = true /\
  exists lead,
    validate_Lead (email_validator Sample.lib) (lax_int Sample.lib)
      (Sample.request (RInt 8)) = inr lead /\
    create_document Sample.world_ok (store Sample.st_up) "lead" lead
    = (inr (id (mkCreated true "doc-0" true)),
       store (snd (post_api_leads Sample.lib Sample.world_ok
                     (Sample.request (RInt 8)) Sample.st_up))).
Proof.
  apply (acknowledged_lead_was_stored Sample.lib Sample.world_ok
           (Sample.request (RInt 8)) (mkCreated true "doc-0" true) Sample.st_up
           (snd (post_api_leads Sample.lib Sample.world_ok
                   (Sample.request (RInt 8)) Sample.st_up))).
  vm_compute. reflexivity.
Defined.

Lemma stored_lead_is_kept_witness :
  create_document Sample.world_bad_port (store Sample.st_up) "lead" Sample.ana
  = (inr "doc-0", Database.mkStore true [("doc-0", ("lead", Sample.ana))]) /\
  fst (post_api_leads Sample.lib Sample.world_bad_port
         (Sample.request (RInt 8)) Sample.st_up) = InternalServerError /\
  store (snd (post_api_leads Sample.lib Sample.world_bad_port
                (Sample.request (RInt 8)) Sample.st_up))
  = Database.mkStore true [("doc-0", ("lead", Sample.ana))].
Proof.
  split; [vm_compute; reflexivity |]. split; [vm_compute; reflexivity |].
  apply (stored_lead_is_kept Sample.lib Sample.world_bad_port
           (Sample.request (RInt 8)) Sample.ana Sample.ana "doc-0"
           (Database.mkStore true [("doc-0", ("lead", Sample.ana))]) Sample.st_up);
    vm_compute; reflexivity.
Defined.

Lemma failed_revalidation_answers_422_witness :
  validate_Lead (email_validator Sample.lib_local_part) (lax_int Sample.lib_local_part)
    (Sample.request (RInt 8)) = inr (mkLead "Ana" "ana" "999" "Leo" 8 "Kids"
                                       "San Isidro" ["Ajedrez"] None None) /\
  post_api_leads Sample.lib_local_part Sample.world_ok (Sample.request (RInt 8))
    Sample.st_up
  = (HTTPError 422 "validation error", Sample.st_up).
Proof.
  split; [vm_compute; reflexivity |].
  apply (failed_revalidation_answers_422 Sample.lib_local_part Sample.world_ok
           (Sample.request (RInt 8))
           (mkLead "Ana" "ana" "999" "Leo" 8 "Kids" "San Isidro" ["Ajedrez"] None None)
           [mkError "parent_email" None EmailSyntax] Sample.st_up);
    vm_compute; reflexivity.
Defined.


End IntakeProperties.


(* ===================================================================== *)
(** ** The diagnostic endpoint                                             *)
(* ===================================================================== *)

Module HealthProperties.

Import Health.

Lemma num_chars_take_chars n s : (num_chars (take_chars n s) <= n)%nat.
Proof.
  revert n. induction s as [| c s IH]; intros n; simpl; [lia |].
  destruct (is_continuation c) eqn:Hc; simpl.
  - rewrite Hc. apply IH.
  - destruct n as [| n]; simpl; [lia |]. rewrite Hc. specialize (IH n). lia.
Qed.

Lemma take_chars_prefix n s : exists rest, s = take_chars n s +:+ rest.
Proof.
  revert n. induction s as [| c s IH]; intros n; simpl; [by exists "" |].
  destruct (is_continuation c).
  - destruct (IH n) as [rest Hrest]. exists rest.
    change (String c s = String c (take_chars n s +:+ rest)). by rewrite <- Hrest.
  - destruct n as [| n]; [by exists (String c s) |].
    destruct (IH n) as [rest Hrest]. exists rest.
    change (String c s = String c (take_chars n s +:+ rest)). by rewrite <- Hrest.
Qed.

Lemma take_chars_all n s : (num_chars s <= n)%nat -> take_chars n s = s.
Proof.
  revert n. induction s as [| c s IH]; intros n; simpl; [reflexivity |].
  destruct (is_continuation c).
  - intros H. by rewrite IH.
  - destruct n as [| n]; [lia |]. intros H. rewrite IH; [reflexivity | lia].
Qed.

(** X17: the two configuration entries of the report say only whether
    [DATABASE_URL] and [DATABASE_NAME] are set to a non-empty value.  They
    do not depend on the database: neither its name nor the "Configured"
    mark written earlier in the function reaches the caller, and the value
    of a variable is never shown. *)
Theorem health_reports_settings_only (imp : import_result) (env : gmap string string) :
  test_database imp env !! "database_url"
  = Some (VStr (if Py.truthy_opt (env !! "DATABASE_URL")
                then "✅ Set" else "❌ Not Set")) /\
  test_database imp env !! "database_name"
  = Some (VStr (if Py.truthy_opt (env !! "DATABASE_NAME")
                then "✅ Set" else "❌ Not Set")).
Proof.
  unfold test_database.
  destruct imp as [| msg | [db |]]; [| | destruct (list_collection_names db) |];
    split; reflexivity.
Qed.

(** X18: the report lists at most ten collections, and they are the first
    ones the store lists, in its order; it lists none when the database is
    missing or the listing fails. *)
Theorem health_collections_bounded (imp : import_result) (env : gmap string string) :
  exists names,
    test_database imp env !! "collections" = Some (VList names) /\
    (length names <= 10)%nat /\
    names `prefix_of` listed imp /\
    (length names < 10 -> names = listed imp)%nat.
Proof.
  unfold test_database, listed.
  destruct imp as [| msg | [db |]]; [| | destruct (list_collection_names db) as [m | all] |].
  4: { exists (take 10 all). split; [reflexivity |].
       split; [rewrite length_take; lia |].
       split; [apply prefix_take |].
       rewrite length_take. intros H. apply take_ge. lia. }
  all: exists []; split; [reflexivity |]; split; [simpl; lia |]; split; [done | done].
Qed.

(** X19: the [database] entry of the report is one of three fixed texts
    when no exception was caught, and otherwise a fixed label followed by
    the beginning of the text of the exception, fifty characters at most;
    a text of fifty characters or less is quoted whole. *)
Theorem health_error_excerpt_bounded (imp : import_result) (env : gmap string string) :
  exists report,
    test_database imp env !! "database" = Some (VStr report) /\
    match error_text imp with
    | None => report ∈ fixed_reports
    | Some msg =>
        exists label excerpt rest,
          label ∈ error_labels /\
          report = label +:+ excerpt /\
          (num_chars excerpt <= 50)%nat /\
          msg = excerpt +:+ rest /\
          ((num_chars msg <= 50)%nat -> excerpt = msg)
    end.
Proof.
  unfold test_database, error_text, fixed_reports, error_labels.
  destruct imp as [| msg | [db |]]; [| | destruct (list_collection_names db) as [msg | all] |].
  - eexists. split; [reflexivity |]. rewrite !elem_of_cons. tauto.
  - eexists. split; [reflexivity |].
    destruct (take_chars_prefix 50 msg) as [rest Hrest].
    exists "❌ Error: ", (take_chars 50 msg), rest.
    split; [rewrite !elem_of_cons; tauto |]. split; [reflexivity |].
    split; [apply num_chars_take_chars |]. split; [exact Hrest | apply take_chars_all].
  - eexists. split; [reflexivity |].
    destruct (take_chars_prefix 50 msg) as [rest Hrest].
    exists "⚠️  Connected but Error: ", (take_chars 50 msg), rest.
    split; [rewrite !elem_of_cons; tauto |]. split; [reflexivity |].
    split; [apply num_chars_take_chars |]. split; [exact Hrest | apply take_chars_all].
  - eexists. split; [reflexivity |]. rewrite !elem_of_cons. tauto.
  - eexists. split; [reflexivity |]. rewrite !elem_of_cons. tauto.
Qed.

(** X20: the report always has the same six keys; the process entry is
    always the running mark, and the connection status is "Connected"
    exactly when the database object was imported and is not [None], even
    if listing its collections then failed. *)
Theorem health_response_shape (imp : import_result) (env : gmap string string) :
  dom (test_database imp env) = response_keys /\
  test_database imp env !! "backend" = Some (VStr "✅ Running") /\
  test_database imp env !! "connection_status"
  = Some (VStr (if has_db imp then "Connected" else "Not Connected")).
Proof.
  unfold test_database, response_keys, has_db.
  destruct imp as [| msg | [db |]]; [| | destruct (list_collection_names db) |];
    (split; [rewrite !dom_insert_L, dom_empty_L; set_solver | split; reflexivity]).
Qed.

End HealthProperties.
